(** * ResearchLens: the client-side orchestration of the paper-analysis page

    A shallow embedding of the event handlers of the two page components of
    the repository,

    - [src/app/page.tsx] (module [Page]): the conversational page, with the
      five-stage progression and the upload broker;
    - [src/unnamed/part_000] (module [Pipeline]): the guided-pipeline page,
      with the seven-stage progression and the scripted run;

    and the properties of the specification settled against them (modules
    [PageSpec] and [PipelineSpec]).

    A React handler is a closure over the state of the render it was created
    in; it calls state setters, awaits remote calls and reads the clock.  A
    handler is modelled as a computation over a [World] holding the live
    state cells and the ordered trace of the effects issued so far; the
    remote collaborators and the clock are an environment the computation
    reads its replies from.  A handler runs to its end before the next one
    starts: the interleaving of other handlers at an [await] is not
    modelled, the trace keeps what is written on either side of it. *)

From Stdlib Require Import ZArith Ascii String.
From Stdlib Require PrimFloat.
From stdpp Require Import base decidable option list strings pretty gmap.

Open Scope string_scope.
Open Scope list_scope.

(** ** JavaScript values used by the handlers *)

Module Js.

(** Strings are sequences of code units; the embedding covers code units
    in the Latin-1 range, one [ascii] each. *)

(** WhiteSpace and LineTerminator code units below 256, as removed by
    [String.prototype.trim]: TAB, LF, VT, FF, CR, SP, NBSP. *)
Definition is_whitespace (c : ascii) : bool :=
  let n := nat_of_ascii c in
  ((n =? 9) || (n =? 10) || (n =? 11) || (n =? 12) || (n =? 13)
   || (n =? 32) || (n =? 160))%nat.

Fixpoint trimStart (s : string) : string :=
  match s with
  | EmptyString => EmptyString
  | String c s' => if is_whitespace c then trimStart s' else s
  end.

Definition trimEnd (s : string) : string :=
  String.rev (trimStart (String.rev s)).

(** [s.trim()] *)
Definition trim (s : string) : string := trimEnd (trimStart s).

(** Truthiness of a string: every string but the empty one. *)
Definition truthy (s : string) : bool :=
  match s with EmptyString => false | String _ _ => true end.

(** [a || b] on an optional string: the first operand when it is present
    and truthy, the second otherwise. *)
Definition or_else (a : option string) (b : string) : string :=
  match a with
  | Some s => if truthy s then s else b
  | None => b
  end.

(** A value that may be [null] or [undefined]. *)
Inductive nullable (A : Type) : Type :=
| null
| undefined
| defined (a : A).
Arguments null {A}.
Arguments undefined {A}.
Arguments defined {A} a.

(** [`${x}`] on an optional string property ([undefined] when missing). *)
Definition template_opt (x : option string) : string :=
  match x with Some s => s | None => "undefined" end.

(** [xs.join(sep)] *)
Fixpoint join (sep : string) (xs : list string) : string :=
  match xs with
  | [] => ""
  | [x] => x
  | x :: rest => x +:+ sep +:+ join sep rest
  end.

(** [xs.map((x, i) => f x i)], the index starting at [i]. *)
Fixpoint mapi_from {A B : Type} (i : nat) (f : A → nat → B) (xs : list A)
  : list B :=
  match xs with
  | [] => []
  | x :: rest => f x i :: mapi_from (S i) f rest
  end.

Definition mapi {A B : Type} (f : A → nat → B) (xs : list A) : list B :=
  mapi_from 0 f xs.

(** The character class [[a-z0-9]] under the [i] flag. *)
Definition is_alnum (c : ascii) : bool :=
  let n := nat_of_ascii c in
  (((48 <=? n) && (n <=? 57)) || ((65 <=? n) && (n <=? 90))
   || ((97 <=? n) && (n <=? 122)))%nat.

(** [s.replace(/[^a-z0-9]/gi, '_')] *)
Fixpoint replace_non_alnum (s : string) : string :=
  match s with
  | EmptyString => EmptyString
  | String c s' =>
      String (if is_alnum c then c else "_"%char) (replace_non_alnum s')
  end.

(** The text of [s] up to, and without, its first line feed. *)
Fixpoint first_line (s : string) : string :=
  match s with
  | EmptyString => EmptyString
  | String c s' =>
      if Ascii.eqb c "010"%char then EmptyString else String c (first_line s')
  end.

(** [hay.includes(needle)] *)
Fixpoint includes (hay needle : string) : bool :=
  String.prefix needle hay
  || match hay with
     | EmptyString => false
     | String _ hay' => includes hay' needle
     end.

(** [s] holds no line feed. *)
Fixpoint single_line (s : string) : bool :=
  match s with
  | EmptyString => true
  | String c s' => negb (Ascii.eqb c "010"%char) && single_line s'
  end.

(** The settlement of an awaited promise. *)
Inductive Outcome (A : Type) : Type :=
| Resolved (a : A)
| Rejected (reason : string).
Arguments Resolved {A} a.
Arguments Rejected {A} reason.

(** [s.startsWith(prefix)] *)
Definition startsWith (s prefix : string) : bool := String.prefix prefix s.

(** [s.split(c)] for a separator of one code unit: the pieces between the
    occurrences of [c], in order; a string without [c] is its only piece. *)
Fixpoint split (c : ascii) (s : string) : list string :=
  match s with
  | EmptyString => [EmptyString]
  | String x s' =>
      if Ascii.eqb x c
      then EmptyString :: split c s'
      else match split c s' with
           | piece :: pieces => String x piece :: pieces
           | [] => [String x EmptyString]
           end
  end.

(** [s] without its first [n] code units. *)
Fixpoint drop (n : nat) (s : string) : string :=
  match n, s with
  | S n', String _ s' => drop n' s'
  | _, _ => s
  end.

(** [s.replace(pattern, replacement)] for a string pattern, and a
    replacement without [$]: the first occurrence of [pattern] is
    replaced, the others are kept. *)
Fixpoint replace_first (pattern replacement s : string) : string :=
  if String.prefix pattern s
  then replacement +:+ drop (String.length pattern) s
  else match s with
       | EmptyString => EmptyString
       | String x s' => String x (replace_first pattern replacement s')
       end.

(** [s] holds no code unit [c]. *)
Fixpoint free_of (c : ascii) (s : string) : bool :=
  match s with
  | EmptyString => true
  | String x s' => negb (Ascii.eqb x c) && free_of c s'
  end.

End Js.

(** ** Handlers as computations *)

Module Handler.

(** How the evaluation of a statement completes: normally with a value, by
    a [return] leaving the enclosing function, or by a thrown value. *)
Inductive Completion (A : Type) : Type :=
| Normal (a : A)
| Return
| Throw (error : string).
Arguments Normal {A} a.
Arguments Return {A}.
Arguments Throw {A} error.

Section Defs.
Context {St Eff Env : Type}.

(** The live state cells, the effects issued so far (oldest first) and
    the number of clock readings taken. *)
Record World : Type := mkWorld {
  cells : St;
  trace : list Eff;
  ticks : nat
}.

Definition M (A : Type) : Type := Env → World → World * Completion A.

Definition ret {A : Type} (a : A) : M A := λ _ w, (w, Normal a).

Definition bind {A B : Type} (f : A → M B) (m : M A) : M B :=
  λ env w,
    match m env w with
    | (w', Normal a) => f a env w'
    | (w', Return) => (w', Return)
    | (w', Throw e) => (w', Throw e)
    end.

(** [return] *)
Definition return_ {A : Type} : M A := λ _ w, (w, Return).

(** [throw e] *)
Definition throw {A : Type} (e : string) : M A := λ _ w, (w, Throw e).

(** [try { body } catch (error) { handler error }] *)
Definition try_catch {A : Type} (body : M A) (handler : string → M A)
  : M A :=
  λ env w,
    match body env w with
    | (w', Throw e) => handler e env w'
    | r => r
    end.

(** The body of a function of result [undefined]: a [return] inside it
    completes the call normally. *)
Definition fn (body : M unit) : M unit :=
  λ env w,
    match body env w with
    | (w', Return) => (w', Normal ())
    | r => r
    end.

(** The state of the render the running handler closes over. *)
Definition closure : M St := λ _ w, (w, Normal (cells w)).

Definition ask : M Env := λ env w, (w, Normal env).

(** Record an effect. *)
Definition emit (e : Eff) : M unit :=
  λ _ w, (mkWorld (cells w) (trace w ++ [e]) (ticks w), Normal ()).

(** Update the live cells. *)
Definition modify (f : St → St) : M unit :=
  λ _ w, (mkWorld (f (cells w)) (trace w) (ticks w), Normal ()).

(** Take the next clock reading. *)
Definition tick : M nat :=
  λ _ w, (mkWorld (cells w) (trace w) (S (ticks w)), Normal (ticks w)).

(** [await p] for a promise that settles as [o]. *)
Definition await {A : Type} (o : Js.Outcome A) : M A :=
  match o with
  | Js.Resolved a => ret a
  | Js.Rejected e => throw e
  end.

(** Run a handler on the render of state [s], from an empty trace. *)
Definition run (h : M unit) (env : Env) (s : St) : World :=
  fst (h env (mkWorld s [] 0)).

Definition completion (h : M unit) (env : Env) (s : St)
  : Completion unit :=
  snd (h env (mkWorld s [] 0)).

End Defs.

Arguments World : clear implicits.
Arguments M : clear implicits.

#[global] Instance handler_ret {St Eff Env} : MRet (M St Eff Env) :=
  λ A, ret.
#[global] Instance handler_bind {St Eff Env} : MBind (M St Eff Env) :=
  λ A B, bind.

End Handler.

Import Handler.

(** ** The remote collaborators ([@/lib/aiAgent]) *)

Module AiAgent.

(** A browser [File]: the handlers read its name and its media type. *)
Record File : Type := mkFile {
  file_name : string;
  file_type : string
}.

(** Modelled from the spec: the result type of [uploadFiles], declared in
    [@/lib/aiAgent], which is not among the sources; section 6 gives it as
    [{success: bool, asset_ids: ordered list of string, error?: string}]. *)
Record UploadResult : Type := mkUploadResult {
  upload_success : bool;
  asset_ids : list string;
  upload_error : option string
}.

(** Modelled from the spec: the result type of [callAIAgent], declared in
    [@/lib/aiAgent]; section 6 gives it as
    [{success: bool, response: {status: string, result: payload}}].  The
    payload type is the handlers' own and is a parameter here. *)
Record Response (Payload : Type) : Type := mkResponse {
  status : string;
  result : Payload
}.
Arguments mkResponse {Payload}.
Arguments status {Payload}.
Arguments result {Payload}.

Record AgentResult (Payload : Type) : Type := mkAgentResult {
  success : bool;
  response : Response Payload
}.
Arguments mkAgentResult {Payload}.
Arguments success {Payload}.
Arguments response {Payload}.

(** [result.success && result.response.status === 'success'] *)
Definition succeeded {Payload : Type} (r : AgentResult Payload) : bool :=
  success r && String.eqb (status (response r)) "success".

End AiAgent.

Import AiAgent.

(** ** The recommendation cards *)

Module Cards.

(** The [href] of the "View Paper" anchor of a recommendation card, from
    the card's [doi_or_arxiv_id]; the same expression in both pages
    ([src/app/page.tsx] and [src/unnamed/part_000]). *)
Definition paperHref (doi_or_arxiv_id : string) : string :=
  if Js.startsWith doi_or_arxiv_id "arXiv"
  then "https://arxiv.org/abs/"
       +:+ Js.template_opt (Js.split ":"%char doi_or_arxiv_id !! 1)
  else "https://doi.org/" +:+ Js.replace_first "doi:" "" doi_or_arxiv_id.

End Cards.

(** ** [src/app/page.tsx] *)

Module Page.

Definition DISCOVERY_COORDINATOR : string := "6985a8c9e2c0086a4fc43c18".

(** Integral numbers (ranks, years) are integers; the scores, which the
    handlers store and never compute with, are binary64 values. *)
Definition Date : Type := Z.

Inductive Role : Type := user | assistant.

Record ChatMessage : Type := mkChatMessage {
  role : Role;
  content : string;
  timestamp : option Date
}.

Record DocumentInfo : Type := mkDocumentInfo {
  title : string;
  authors : list string;
  abstract : string;
  year : option Z
}.

Record Methodology : Type := mkMethodology {
  approach : string;
  techniques : list string;
  methodology_section_citation : string
}.

Record Results : Type := mkResults {
  key_findings : list string;
  results_section_citation : string
}.

Record Limitations : Type := mkLimitations {
  identified_limitations : list string;
  limitations_section_citation : string
}.

Record KeyClaim : Type := mkKeyClaim {
  claim : string;
  claim_section_citation : string;
  confidence : string
}.

Record UnderstandingResult : Type := mkUnderstandingResult {
  problem_statement : string;
  methodology : Methodology;
  results : Results;
  limitations : Limitations;
  key_claims : list KeyClaim
}.

Record KeyPoint : Type := mkKeyPoint {
  point : string;
  section_reference : string
}.

Record Recommendation : Type := mkRecommendation {
  rank : Z;
  rec_title : string;
  rec_authors : list string;
  rec_year : Z;
  source : string;
  doi_or_arxiv_id : string;
  relevance_score : PrimFloat.float;
  relevance_explanation : string;
  abstract_snippet : string
}.

Inductive ProcessingStage : Type :=
| idle | uploading | conversation | analyzing | complete.

(** The position of a stage in the progression
    [idle → uploading → conversation → analyzing → complete]. *)
Definition stage_index (s : ProcessingStage) : nat :=
  match s with
  | idle => 0
  | uploading => 1
  | conversation => 2
  | analyzing => 3
  | complete => 4
  end.

(** *** The coordinator's payload, as far as the handlers read it *)

Record Summary : Type := mkSummary {
  key_points : option (list KeyPoint)
}.

Record QualityValidation : Type := mkQualityValidation {
  quality_score : Js.nullable PrimFloat.float
}.

Record AggregatedResults : Type := mkAggregatedResults {
  document_info : option DocumentInfo;
  paper_analysis : option UnderstandingResult;
  summary : option Summary;
  agg_recommendations : option (list Recommendation);
  quality_validation : option QualityValidation
}.

(** An optional field is [None] when the property is missing or holds a
    falsy value. *)
Record Payload : Type := mkPayload {
  user_message : option string;
  aggregated_results : option AggregatedResults
}.

(** *** Component state: one field for each [useState] cell *)

Record State : Type := mkState {
  pdfFile : option File;
  doiInput : string;
  arxivInput : string;
  dragActive : bool;
  uploadedAssetIds : list string;
  chatMessages : list ChatMessage;
  userInput : string;
  isLoading : bool;
  stage : ProcessingStage;
  documentInfo : option DocumentInfo;
  understanding : option UnderstandingResult;
  keyTakeaways : list KeyPoint;
  recommendations : list Recommendation;
  qualityScore : Js.nullable PrimFloat.float;
  expandedSections : gset string;
  sidebarOpen : bool
}.

(** The state of the first render. *)
Definition initial : State :=
  {| pdfFile := None; doiInput := ""; arxivInput := ""; dragActive := false;
     uploadedAssetIds := []; chatMessages := []; userInput := "";
     isLoading := false; stage := idle; documentInfo := None;
     understanding := None; keyTakeaways := []; recommendations := [];
     qualityScore := Js.null; expandedSections := {[ "problem" ]};
     sidebarOpen := false |}.

(** A call of a state setter.  [AppendChatMessage m] is the functional
    update [setChatMessages(prev => [...prev, m])]; the others set the
    cell to the given value. *)
Inductive Setter : Type :=
| SetPdfFile (v : option File)
| SetDoiInput (v : string)
| SetArxivInput (v : string)
| SetDragActive (v : bool)
| SetUploadedAssetIds (v : list string)
| SetChatMessages (v : list ChatMessage)
| AppendChatMessage (m : ChatMessage)
| SetUserInput (v : string)
| SetIsLoading (v : bool)
| SetStage (v : ProcessingStage)
| SetDocumentInfo (v : option DocumentInfo)
| SetUnderstanding (v : option UnderstandingResult)
| SetKeyTakeaways (v : list KeyPoint)
| SetRecommendations (v : list Recommendation)
| SetQualityScore (v : Js.nullable PrimFloat.float)
| SetExpandedSections (v : gset string)
| SetSidebarOpen (v : bool).

Definition apply (u : Setter) (s : State) : State :=
  let '(mkState pf doi arx drag ids msgs inp load stg doc und kts recs qs
          exp side) := s in
  match u with
  | SetPdfFile v =>
      mkState v doi arx drag ids msgs inp load stg doc und kts recs qs exp side
  | SetDoiInput v =>
      mkState pf v arx drag ids msgs inp load stg doc und kts recs qs exp side
  | SetArxivInput v =>
      mkState pf doi v drag ids msgs inp load stg doc und kts recs qs exp side
  | SetDragActive v =>
      mkState pf doi arx v ids msgs inp load stg doc und kts recs qs exp side
  | SetUploadedAssetIds v =>
      mkState pf doi arx drag v msgs inp load stg doc und kts recs qs exp side
  | SetChatMessages v =>
      mkState pf doi arx drag ids v inp load stg doc und kts recs qs exp side
  | AppendChatMessage m =>
      mkState pf doi arx drag ids (msgs ++ [m]) inp load stg doc und kts recs
        qs exp side
  | SetUserInput v =>
      mkState pf doi arx drag ids msgs v load stg doc und kts recs qs exp side
  | SetIsLoading v =>
      mkState pf doi arx drag ids msgs inp v stg doc und kts recs qs exp side
  | SetStage v =>
      mkState pf doi arx drag ids msgs inp load v doc und kts recs qs exp side
  | SetDocumentInfo v =>
      mkState pf doi arx drag ids msgs inp load stg v und kts recs qs exp side
  | SetUnderstanding v =>
      mkState pf doi arx drag ids msgs inp load stg doc v kts recs qs exp side
  | SetKeyTakeaways v =>
      mkState pf doi arx drag ids msgs inp load stg doc und v recs qs exp side
  | SetRecommendations v =>
      mkState pf doi arx drag ids msgs inp load stg doc und kts v qs exp side
  | SetQualityScore v =>
      mkState pf doi arx drag ids msgs inp load stg doc und kts recs v exp side
  | SetExpandedSections v =>
      mkState pf doi arx drag ids msgs inp load stg doc und kts recs qs v side
  | SetSidebarOpen v =>
      mkState pf doi arx drag ids msgs inp load stg doc und kts recs qs exp v
  end.

(** What a handler does besides computing: setter calls, the two remote
    calls, the diagnostic log and the file handed to the browser. *)
Inductive Effect : Type :=
| Set_ (u : Setter)
| UploadFiles (file : File)
| CallAIAgent (message agent_id : string) (assets : list string)
| ConsoleError (error : string)
| Download (filename content : string).

(** The settlements of the remote calls and the clock readings. *)
Record Env : Type := mkEnv {
  uploadFiles_settles : File → Js.Outcome UploadResult;
  callAIAgent_settles :
    string → string → list string → Js.Outcome (AgentResult Payload);
  clock : nat → Date
}.

Definition Handler : Type → Type := M State Effect Env.

Definition set (u : Setter) : Handler unit :=
  modify (apply u) ;; emit (Set_ u).

(** [new Date()] *)
Definition new_Date : Handler Date :=
  env ← ask; n ← tick; mret (clock env n).

(** [await uploadFiles(file)] *)
Definition uploadFiles (file : File) : Handler UploadResult :=
  env ← ask;
  emit (UploadFiles file) ;;
  await (uploadFiles_settles env file).

(** [await callAIAgent(message, agent_id, { assets })] *)
Definition callAIAgent (message agent_id : string) (assets : list string)
  : Handler (AgentResult Payload) :=
  env ← ask;
  emit (CallAIAgent message agent_id assets) ;;
  await (callAIAgent_settles env message agent_id assets).

(** *** Intake handlers *)

(** [handleDrag], on an event of type [type]. *)
Definition handleDrag (type : string) : Handler unit :=
  fn (if String.eqb type "dragenter" || String.eqb type "dragover"
      then set (SetDragActive true)
      else if String.eqb type "dragleave"
           then set (SetDragActive false)
           else mret ()).

(** [handleDrop], on an event whose [dataTransfer.files] is [files]. *)
Definition handleDrop (files : list File) : Handler unit :=
  fn (set (SetDragActive false) ;;
      match files with
      | file :: _ =>
          if String.eqb (file_type file) "application/pdf"
          then set (SetPdfFile (Some file))
          else mret ()
      | [] => mret ()
      end).

(** [handleFileChange], on an event whose [target.files] is [files]. *)
Definition handleFileChange (files : list File) : Handler unit :=
  fn (match files with
      | file :: _ => set (SetPdfFile (Some file))
      | [] => mret ()
      end).

(** *** Disclosure of the result sections *)

Definition toggleSection (section : string) : Handler unit :=
  fn (snap ← closure;
      let newExpanded : gset string := expandedSections snap in
      let newExpanded : gset string :=
        if decide (section ∈ newExpanded)
        then newExpanded ∖ {[ section ]}
        else newExpanded ∪ {[ section ]} in
      set (SetExpandedSections newExpanded)).

(** *** Session reset *)

Definition resetAnalysis : Handler unit :=
  fn (set (SetPdfFile None) ;;
      set (SetDoiInput "") ;;
      set (SetArxivInput "") ;;
      set (SetUploadedAssetIds []) ;;
      set (SetChatMessages []) ;;
      set (SetUserInput "") ;;
      set (SetStage idle) ;;
      set (SetDocumentInfo None) ;;
      set (SetUnderstanding None) ;;
      set (SetKeyTakeaways []) ;;
      set (SetRecommendations []) ;;
      set (SetQualityScore Js.null) ;;
      set (SetExpandedSections {[ "problem" ]})).

(** *** Intake submission, upload and the opening turn *)

(** The synthesized opening message. *)
Definition initialMessage (snap : State) : string :=
  "I've uploaded a research paper"
  +:+ match pdfFile snap with
      | Some f => " (PDF: " +:+ file_name f +:+ ")"
      | None => ""
      end
  +:+ (if Js.truthy (doiInput snap)
       then " (DOI: " +:+ doiInput snap +:+ ")" else "")
  +:+ (if Js.truthy (arxivInput snap)
       then " (arXiv: " +:+ arxivInput snap +:+ ")" else "")
  +:+ ". Please help me analyze it.".

Definition analyzeDocument : Handler unit :=
  fn (snap ← closure;
      (if negb (bool_decide (is_Some (pdfFile snap)))
          && negb (Js.truthy (doiInput snap))
          && negb (Js.truthy (arxivInput snap))
       then return_ else mret ()) ;;
      set (SetIsLoading true) ;;
      set (SetStage uploading) ;;
      try_catch
        (assetIds ←
           match pdfFile snap with
           | Some file =>
               (* Upload PDF if present *)
               uploadResult ← uploadFiles file;
               if upload_success uploadResult
               then
                 set (SetUploadedAssetIds (asset_ids uploadResult)) ;;
                 mret (asset_ids uploadResult)
               else
                 t ← new_Date;
                 set (SetChatMessages
                        [ {| role := assistant;
                             content :=
                               "Failed to upload PDF: "
                               +:+ Js.template_opt (upload_error uploadResult)
                               +:+ ". Please try again.";
                             timestamp := Some t |} ]) ;;
                 set (SetIsLoading false) ;;
                 set (SetStage idle) ;;
                 return_
           | None => mret []
           end;
         (* Start conversation with Discovery Coordinator *)
         set (SetStage conversation) ;;
         t ← new_Date;
         set (SetChatMessages
                [ {| role := user;
                     content := initialMessage snap;
                     timestamp := Some t |} ]) ;;
         result ← callAIAgent (initialMessage snap) DISCOVERY_COORDINATOR
                    assetIds;
         (if succeeded result
          then
            let responseData := AiAgent.result (response result) in
            t ← new_Date;
            set (AppendChatMessage
                   {| role := assistant;
                      content :=
                        Js.or_else (user_message responseData)
                          "What aspects of the paper would you like me to focus on? (e.g., methodology, limitations, practical applications)";
                      timestamp := Some t |})
          else
            t ← new_Date;
            set (AppendChatMessage
                   {| role := assistant;
                      content :=
                        "I encountered an issue starting the analysis. Please try again.";
                      timestamp := Some t |})) ;;
         set (SetIsLoading false))
        (λ error,
           emit (ConsoleError error) ;;
           t ← new_Date;
           set (SetChatMessages
                  [ {| role := assistant;
                       content :=
                         "An error occurred during upload. Please try again.";
                       timestamp := Some t |} ]) ;;
           set (SetIsLoading false) ;;
           set (SetStage idle))).

(** *** A conversation turn *)

(** The result aggregator: the body of [if (data.aggregated_results)]. *)
Definition aggregate (ar : AggregatedResults) : Handler unit :=
  set (SetStage analyzing) ;;
  (* Extract document info *)
  (match document_info ar with
   | Some d => set (SetDocumentInfo (Some d))
   | None => mret ()
   end) ;;
  (* Extract understanding *)
  (match paper_analysis ar with
   | Some u => set (SetUnderstanding (Some u))
   | None => mret ()
   end) ;;
  (* Extract summary and key points *)
  (match summary ar with
   | Some sm => set (SetKeyTakeaways (default [] (key_points sm)))
   | None => mret ()
   end) ;;
  (* Extract recommendations *)
  (match agg_recommendations ar with
   | Some rs => set (SetRecommendations rs)
   | None => mret ()
   end) ;;
  (* Extract quality score *)
  (match quality_validation ar with
   | Some qv => set (SetQualityScore (quality_score qv))
   | None => mret ()
   end) ;;
  set (SetStage complete).

Definition sendMessage : Handler unit :=
  fn (snap ← closure;
      (if negb (Js.truthy (Js.trim (userInput snap))) || isLoading snap
       then return_ else mret ()) ;;
      let message := Js.trim (userInput snap) in
      set (SetUserInput "") ;;
      t ← new_Date;
      set (AppendChatMessage
             {| role := user; content := message; timestamp := Some t |}) ;;
      set (SetIsLoading true) ;;
      try_catch
        (result ← callAIAgent message DISCOVERY_COORDINATOR
                    (uploadedAssetIds snap);
         (if succeeded result
          then
            let data := AiAgent.result (response result) in
            (* Add assistant response *)
            t ← new_Date;
            set (AppendChatMessage
                   {| role := assistant;
                      content :=
                        Js.or_else (user_message data)
                          "Processing your request...";
                      timestamp := Some t |}) ;;
            (* aggregated results, when the reply carries them *)
            match aggregated_results data with
            | Some ar => aggregate ar
            | None => mret ()
            end
          else
            t ← new_Date;
            set (AppendChatMessage
                   {| role := assistant;
                      content :=
                        "I encountered an issue processing your request. Please try again.";
                      timestamp := Some t |})) ;;
         set (SetIsLoading false))
        (λ error,
           emit (ConsoleError error) ;;
           t ← new_Date;
           set (AppendChatMessage
                  {| role := assistant;
                     content := "An error occurred. Please try again.";
                     timestamp := Some t |}) ;;
           set (SetIsLoading false))).

(** *** Export *)

Definition LF : string := String "010"%char EmptyString.

(** The text assembled by [exportSummary]. *)
Definition exportContent (doc : DocumentInfo)
    (und : option UnderstandingResult) (kts : list KeyPoint)
    (recs : list Recommendation) : string :=
  let content := "# " +:+ title doc +:+ LF +:+ LF in
  let content :=
    if bool_decide (0 < length (authors doc))
    then content +:+ "**Authors:** " +:+ Js.join ", " (authors doc)
                 +:+ LF +:+ LF
    else content in
  let content :=
    match und with
    | Some u =>
        if Js.truthy (problem_statement u)
        then content +:+ "## Problem Statement" +:+ LF
                     +:+ problem_statement u +:+ LF +:+ LF
        else content
    | None => content
    end in
  let content :=
    if bool_decide (0 < length kts)
    then content +:+ "## Key Takeaways" +:+ LF
           +:+ Js.join LF
                 (Js.mapi (λ k i, pretty (i + 1) +:+ ". " +:+ point k) kts)
           +:+ LF +:+ LF
    else content in
  let content :=
    if bool_decide (0 < length recs)
    then content +:+ "## Related Papers" +:+ LF
           +:+ Js.join LF
                 (map (λ r, "- " +:+ rec_title r +:+ " ("
                              +:+ pretty (rec_year r) +:+ ")") recs)
           +:+ LF
    else content in
  content.

Definition exportFilename (doc : DocumentInfo) : string :=
  Js.replace_non_alnum (title doc) +:+ "_summary.md".

Definition exportSummary : Handler unit :=
  fn (snap ← closure;
      match documentInfo snap with
      | None => return_
      | Some doc =>
          emit (Download (exportFilename doc)
                  (exportContent doc (understanding snap)
                     (keyTakeaways snap) (recommendations snap)))
      end).

(** *** The page as a whole: user actions and sessions *)

(** What the user, through the rendered controls, makes the page run. *)
Inductive Action : Type :=
| HandleDrag (type : string)
| HandleDrop (files : list File)
| HandleFileChange (files : list File)
| ChangeDoiInput (value : string)
| ChangeArxivInput (value : string)
| ChangeUserInput (value : string)
| ToggleSidebar
| ToggleSection (section : string)
| ResetAnalysis
| AnalyzeDocument
| SendMessage
| ExportSummary.

Definition handler (a : Action) : Handler unit :=
  match a with
  | HandleDrag type => handleDrag type
  | HandleDrop files => handleDrop files
  | HandleFileChange files => handleFileChange files
  | ChangeDoiInput value => set (SetDoiInput value)
  | ChangeArxivInput value => set (SetArxivInput value)
  | ChangeUserInput value => set (SetUserInput value)
  | ToggleSidebar =>
      snap ← closure; set (SetSidebarOpen (negb (sidebarOpen snap)))
  | ToggleSection section => toggleSection section
  | ResetAnalysis => resetAnalysis
  | AnalyzeDocument => analyzeDocument
  | SendMessage => sendMessage
  | ExportSummary => exportSummary
  end.

(** A session: the actions in order, each with the environment its remote
    calls and clock readings are answered from.  The result is the final
    state and the effects of all the actions, oldest first. *)
Fixpoint session (script : list (Env * Action)) (s : State)
  : State * list Effect :=
  match script with
  | [] => (s, [])
  | (env, a) :: rest =>
      let w := run (handler a) env s in
      let '(s', t) := session rest (cells w) in
      (s', (trace w ++ t)%list)
  end.

(** *** Observations on a trace *)

(** The values the stage is set to, in order. *)
Definition stage_writes (t : list Effect) : list ProcessingStage :=
  omap (λ e, match e with Set_ (SetStage v) => Some v | _ => None end) t.

(** The coordinator calls, in order. *)
Definition coordinator_calls (t : list Effect)
  : list (string * string * list string) :=
  omap (λ e, match e with
             | CallAIAgent message agent_id assets =>
                 Some (message, agent_id, assets)
             | _ => None
             end) t.

(** The files handed to the browser, in order. *)
Definition downloads (t : list Effect) : list (string * string) :=
  omap (λ e, match e with
             | Download filename content => Some (filename, content)
             | _ => None
             end) t.

(** No stage in the sequence lies before the one current when it is
    written, [cur] being the stage current at the start. *)
Fixpoint never_backward (cur : ProcessingStage)
    (writes : list ProcessingStage) : bool :=
  match writes with
  | [] => true
  | v :: rest =>
      (stage_index cur <=? stage_index v)%nat && never_backward v rest
  end.

(** [sendMessage] goes past its first line: the input is not blank and no
    call is pending. *)
Definition sendable (s : State) : Prop :=
  Js.truthy (Js.trim (userInput s)) = true ∧ isLoading s = false.

(** [analyzeDocument] goes past its first line: a reference is held. *)
Definition submittable (s : State) : Prop :=
  is_Some (pdfFile s) ∨ doiInput s ≠ "" ∨ arxivInput s ≠ "".

(** The actions that neither start a new analysis nor reset the session. *)
Definition continues_session (a : Action) : bool :=
  match a with
  | AnalyzeDocument | ResetAnalysis => false
  | _ => true
  end.

(** The assistant turn [sendMessage] appends for a reply [r]. *)
Definition reply_text (r : AgentResult Payload) : string :=
  if succeeded r
  then Js.or_else (user_message (result (response r)))
         "Processing your request..."
  else "I encountered an issue processing your request. Please try again.".

(** The coordinator call did not succeed: the promise was rejected (hard
    failure) or the reply does not report success (soft failure). *)
Definition call_failed (o : Js.Outcome (AgentResult Payload)) : bool :=
  match o with
  | Js.Rejected _ => true
  | Js.Resolved r => negb (succeeded r)
  end.

(** The call threw: the promise was rejected. *)
Definition thrown {A : Type} (o : Js.Outcome A) : bool :=
  match o with
  | Js.Rejected _ => true
  | Js.Resolved _ => false
  end.

(** The reply carries aggregated results: the call resolved with a reply
    that reports success and whose payload holds the object. *)
Definition carries_results (o : Js.Outcome (AgentResult Payload)) : bool :=
  match o with
  | Js.Resolved r =>
      succeeded r
      && bool_decide (is_Some (aggregated_results (result (response r))))
  | Js.Rejected _ => false
  end.

(** The upload did not succeed: the promise was rejected or the transport
    reports failure. *)
Definition upload_failed (o : Js.Outcome UploadResult) : bool :=
  match o with
  | Js.Rejected _ => true
  | Js.Resolved up => negb (upload_success up)
  end.

(** The held results. *)
Definition held_results (s : State) :=
  (documentInfo s, understanding s, keyTakeaways s, recommendations s,
   qualityScore s).

(** *** What the render derives from the state *)

#[global] Instance ProcessingStage_eq_dec : EqDecision ProcessingStage.
Proof. solve_decision. Defined.

(** The upload zone, with the drop area, the file picker, the DOI and arXiv
    fields and the analyze button, is rendered under [stage === 'idle']. *)
Definition upload_zone_rendered (s : State) : bool :=
  bool_decide (stage s = idle).

(** The reset button, the conversation panel and the results panel are
    rendered under [stage !== 'idle']. *)
Definition panels_rendered (s : State) : bool :=
  negb (bool_decide (stage s = idle)).

(** The analysis card, with the export button and the section toggles, is
    rendered in the results panel under [understanding]. *)
Definition analysis_card_rendered (s : State) : bool :=
  panels_rendered s && bool_decide (is_Some (understanding s)).

(** The action can be taken on the render of [s]: its control is rendered
    and not disabled.  A turn is sent by the send button or by the Enter key
    in the text area, which is disabled while a call is pending. *)
Definition available (a : Action) (s : State) : bool :=
  match a with
  | HandleDrag _ | HandleDrop _ | HandleFileChange _
  | ChangeDoiInput _ | ChangeArxivInput _ => upload_zone_rendered s
  | AnalyzeDocument =>
      upload_zone_rendered s
      && negb (negb (bool_decide (is_Some (pdfFile s)))
               && negb (Js.truthy (doiInput s))
               && negb (Js.truthy (arxivInput s))
               || isLoading s)
  | ChangeUserInput _ | SendMessage => panels_rendered s && negb (isLoading s)
  | ResetAnalysis => panels_rendered s
  | ToggleSidebar => true
  | ToggleSection _ | ExportSummary => analysis_card_rendered s
  end.

(** Every action of the script can be taken when its turn comes. *)
Fixpoint playable (script : list (Env * Action)) (s : State) : bool :=
  match script with
  | [] => true
  | (env, a) :: rest =>
      available a s && playable rest (cells (run (handler a) env s))
  end.

(** Every user turn of the log is directly followed by an assistant turn. *)
Fixpoint answered (log : list ChatMessage) : bool :=
  match log with
  | [] => true
  | m :: rest =>
      match role m, rest with
      | assistant, _ => answered rest
      | user, next :: _ =>
          match role next with
          | assistant => answered rest
          | user => false
          end
      | user, [] => false
      end
  end.

(** The asset references the opening call is made with: those of a
    successful upload of the held file, none when no file is held. *)
Definition opening_assets (s : State) (env : Env) (assets : list string)
  : Prop :=
  match pdfFile s with
  | Some file =>
      ∃ up, uploadFiles_settles env file = Js.Resolved up
            ∧ upload_success up = true ∧ asset_ids up = assets
  | None => assets = []
  end.

(** The assistant turn [analyzeDocument] appends for a reply [r]. *)
Definition opening_reply_text (r : AgentResult Payload) : string :=
  if succeeded r
  then Js.or_else (user_message (result (response r)))
         "What aspects of the paper would you like me to focus on? (e.g., methodology, limitations, practical applications)"
  else "I encountered an issue starting the analysis. Please try again.".

(** Between two handlers: no call is pending and the stage is none of the
    two passing stages [uploading] and [analyzing]. *)
Definition at_rest (s : State) : Prop :=
  isLoading s = false
  ∧ (stage s = idle ∨ stage s = conversation ∨ stage s = complete).

(** Results are held at stage [complete] only. *)
Definition results_only_when_complete (s : State) : Prop :=
  stage s ≠ complete → held_results s = held_results initial.

(** The uploads, in order. *)
Definition upload_calls (t : list Effect) : list File :=
  omap (λ e, match e with UploadFiles file => Some file | _ => None end) t.

(** The diagnostics logged, in order. *)
Definition console_errors (t : list Effect) : list string :=
  omap (λ e, match e with ConsoleError error => Some error | _ => None end) t.

End Page.

(** ** [src/unnamed/part_000]: the guided-pipeline page *)

Module Pipeline.

Import PrimFloat.

(** The decimal literals of the source denote the nearest binary64 value, as
    they do in the source language. *)
#[local] Set Warnings "-inexact-float".

Definition DISCOVERY_COORDINATOR : string := "6985a8c9e2c0086a4fc43c18".

Record ConversationState : Type := mkConversationState {
  user_input_received : bool;
  summarization_prompt_provided : bool;
  ready_to_proceed : bool
}.

(** The coordinator's payload, as far as the handlers read it: the reply is
    cast to [DiscoveryCoordinatorResult] and only [user_message] and
    [next_action] are used. *)
Record DiscoveryCoordinatorResult : Type := mkDiscoveryCoordinatorResult {
  workflow_stage : string;
  conversation_state : ConversationState;
  next_action : string;
  user_message : string;
  errors : list string
}.

Record Section_ : Type := mkSection {
  section_name : string;
  section_content : string;
  chunk_id : Z
}.

Record DocumentIngestionResult : Type := mkDocumentIngestionResult {
  title : string;
  authors : list string;
  abstract : string;
  sections : list Section_;
  references : list string;
  doc_validation_status : string;
  validation_errors : list string
}.

Record Methodology : Type := mkMethodology {
  approach : string;
  techniques : list string;
  methodology_section_citation : string
}.

Record Results : Type := mkResults {
  key_findings : list string;
  results_section_citation : string
}.

Record Limitations : Type := mkLimitations {
  identified_limitations : list string;
  limitations_section_citation : string
}.

Record KeyClaim : Type := mkKeyClaim {
  claim : string;
  claim_section_citation : string;
  confidence : string
}.

Record PaperStructure : Type := mkPaperStructure {
  sections_analyzed : list string;
  has_clear_structure : bool
}.

Record UnderstandingResult : Type := mkUnderstandingResult {
  problem_statement : string;
  methodology : Methodology;
  results : Results;
  limitations : Limitations;
  key_claims : list KeyClaim;
  paper_structure : PaperStructure
}.

Record KeyPoint : Type := mkKeyPoint {
  point : string;
  section_reference : string
}.

Record SummarizationResult : Type := mkSummarizationResult {
  summary : string;
  focus_areas_addressed : list string;
  tone : string;
  depth_level : string;
  key_points : list KeyPoint;
  uncertainties : list string;
  word_count : Z
}.

Record SimilarityFactors : Type := mkSimilarityFactors {
  semantic_similarity : float;
  citation_overlap : float;
  methodology_match : float;
  recency_score : float;
  impact_score : float;
  interdisciplinary_relevance : float
}.

Record Recommendation : Type := mkRecommendation {
  rank : Z;
  rec_title : string;
  rec_authors : list string;
  rec_year : Z;
  source : string;
  doi_or_arxiv_id : string;
  relevance_score : float;
  relevance_explanation : string;
  similarity_factors : SimilarityFactors;
  abstract_snippet : string
}.

Record SummaryValidation : Type := mkSummaryValidation {
  coherence_score : float;
  factual_grounding_verified : bool;
  hallucination_flags : list string;
  redundancy_removed : list string;
  summary_issues_found : list string
}.

Record RecommendationsValidation : Type := mkRecommendationsValidation {
  relevance_verified : bool;
  all_recommendations_appropriate : bool;
  recommendations_issues_found : list string;
  recommendations_to_remove : list Z
}.

Record QualityControlResult : Type := mkQualityControlResult {
  validation_status : string;
  summary_validation : SummaryValidation;
  recommendations_validation : RecommendationsValidation;
  uncertainty_flags : list string;
  quality_score : float;
  approved_for_delivery : bool;
  corrections_applied : list string
}.

Inductive PipelineStage : Type :=
| upload | parsing | understanding | summarizing | finding_papers
| quality_check | complete.

(** The position of a stage in the progression [upload → parsing →
    understanding → summarizing → finding_papers → quality_check →
    complete]. *)
Definition stage_index (s : PipelineStage) : nat :=
  match s with
  | upload => 0
  | parsing => 1
  | understanding => 2
  | summarizing => 3
  | finding_papers => 4
  | quality_check => 5
  | complete => 6
  end.

Definition stage_of_index (n : nat) : PipelineStage :=
  match n with
  | 0 => upload
  | 1 => parsing
  | 2 => understanding
  | 3 => summarizing
  | 4 => finding_papers
  | 5 => quality_check
  | _ => complete
  end.

#[global] Instance PipelineStage_eq_dec : EqDecision PipelineStage.
Proof. solve_decision. Defined.

#[global] Instance PipelineStage_countable : Countable PipelineStage.
Proof.
  apply (inj_countable' stage_index stage_of_index).
  intros []; reflexivity.
Defined.

Inductive Role : Type := user | assistant.

Record ChatMessage : Type := mkChatMessage {
  role : Role;
  content : string
}.

(** *** Component state *)

Record State : Type := mkState {
  pdfFile : option File;
  doiInput : string;
  arxivInput : string;
  dragActive : bool;
  chatMessages : list ChatMessage;
  userInput : string;
  isLoading : bool;
  currentStage : PipelineStage;
  stagesCompleted : gset PipelineStage;
  documentInfo : option DocumentIngestionResult;
  understandingResult : option UnderstandingResult;
  summaryResult : option SummarizationResult;
  recommendations : list Recommendation;
  qualityResult : option QualityControlResult;
  expandedSections : gset string;
  sidebarOpen : bool;
  showResults : bool
}.

Definition initial : State :=
  {| pdfFile := None; doiInput := ""; arxivInput := ""; dragActive := false;
     chatMessages := []; userInput := ""; isLoading := false;
     currentStage := upload; stagesCompleted := ∅; documentInfo := None;
     understandingResult := None; summaryResult := None;
     recommendations := []; qualityResult := None;
     expandedSections := {[ "problem" ]}; sidebarOpen := true;
     showResults := false |}.

(** [AppendChatMessage m] is [setChatMessages(prev => [...prev, m])] and
    [AddStageCompleted x] is
    [setStagesCompleted(prev => new Set([...prev, x]))]. *)
Inductive Setter : Type :=
| SetPdfFile (v : option File)
| SetDoiInput (v : string)
| SetArxivInput (v : string)
| SetDragActive (v : bool)
| SetChatMessages (v : list ChatMessage)
| AppendChatMessage (m : ChatMessage)
| SetUserInput (v : string)
| SetIsLoading (v : bool)
| SetCurrentStage (v : PipelineStage)
| AddStageCompleted (x : PipelineStage)
| SetDocumentInfo (v : option DocumentIngestionResult)
| SetUnderstandingResult (v : option UnderstandingResult)
| SetSummaryResult (v : option SummarizationResult)
| SetRecommendations (v : list Recommendation)
| SetQualityResult (v : option QualityControlResult)
| SetExpandedSections (v : gset string)
| SetSidebarOpen (v : bool)
| SetShowResults (v : bool).

Definition apply (u : Setter) (s : State) : State :=
  let '(mkState pf doi arx drag msgs inp load cur done_ doc und sm recs ql
          exp side shw) := s in
  match u with
  | SetPdfFile v =>
      mkState v doi arx drag msgs inp load cur done_ doc und sm recs ql exp
        side shw
  | SetDoiInput v =>
      mkState pf v arx drag msgs inp load cur done_ doc und sm recs ql exp
        side shw
  | SetArxivInput v =>
      mkState pf doi v drag msgs inp load cur done_ doc und sm recs ql exp
        side shw
  | SetDragActive v =>
      mkState pf doi arx v msgs inp load cur done_ doc und sm recs ql exp
        side shw
  | SetChatMessages v =>
      mkState pf doi arx drag v inp load cur done_ doc und sm recs ql exp
        side shw
  | AppendChatMessage m =>
      mkState pf doi arx drag (msgs ++ [m]) inp load cur done_ doc und sm
        recs ql exp side shw
  | SetUserInput v =>
      mkState pf doi arx drag msgs v load cur done_ doc und sm recs ql exp
        side shw
  | SetIsLoading v =>
      mkState pf doi arx drag msgs inp v cur done_ doc und sm recs ql exp
        side shw
  | SetCurrentStage v =>
      mkState pf doi arx drag msgs inp load v done_ doc und sm recs ql exp
        side shw
  | AddStageCompleted x =>
      mkState pf doi arx drag msgs inp load cur (done_ ∪ {[ x ]}) doc und sm
        recs ql exp side shw
  | SetDocumentInfo v =>
      mkState pf doi arx drag msgs inp load cur done_ v und sm recs ql exp
        side shw
  | SetUnderstandingResult v =>
      mkState pf doi arx drag msgs inp load cur done_ doc v sm recs ql exp
        side shw
  | SetSummaryResult v =>
      mkState pf doi arx drag msgs inp load cur done_ doc und v recs ql exp
        side shw
  | SetRecommendations v =>
      mkState pf doi arx drag msgs inp load cur done_ doc und sm v ql exp
        side shw
  | SetQualityResult v =>
      mkState pf doi arx drag msgs inp load cur done_ doc und sm recs v exp
        side shw
  | SetExpandedSections v =>
      mkState pf doi arx drag msgs inp load cur done_ doc und sm recs ql v
        side shw
  | SetSidebarOpen v =>
      mkState pf doi arx drag msgs inp load cur done_ doc und sm recs ql exp
        v shw
  | SetShowResults v =>
      mkState pf doi arx drag msgs inp load cur done_ doc und sm recs ql exp
        side v
  end.

(** The callbacks handed to [setTimeout]. *)
Inductive Callback : Type :=
| SimulateDocumentIngestion
| SimulateUnderstanding
| SimulateSummarization
| SimulateRecommendations
| SimulateQualityControl.

Inductive Effect : Type :=
| Set_ (u : Setter)
| CallAIAgent (message agent_id : string)
| SetTimeout (callback : Callback) (delay : Z)
| ConsoleError (error : string)
| Download (filename content : string).

Record Env : Type := mkEnv {
  callAIAgent_settles :
    string → string → Js.Outcome (AgentResult DiscoveryCoordinatorResult)
}.

Definition Handler : Type → Type := M State Effect Env.

Definition set (u : Setter) : Handler unit :=
  modify (apply u) ;; emit (Set_ u).

(** [await callAIAgent(message, agent_id)] *)
Definition callAIAgent (message agent_id : string)
  : Handler (AgentResult DiscoveryCoordinatorResult) :=
  env ← ask;
  emit (CallAIAgent message agent_id) ;;
  await (callAIAgent_settles env message agent_id).

Definition setTimeout (callback : Callback) (delay : Z) : Handler unit :=
  emit (SetTimeout callback delay).

(** *** Handlers *)

Definition toggleSection (section : string) : Handler unit :=
  fn (snap ← closure;
      let newExpanded : gset string := expandedSections snap in
      let newExpanded : gset string :=
        if decide (section ∈ newExpanded)
        then newExpanded ∖ {[ section ]}
        else newExpanded ∪ {[ section ]} in
      set (SetExpandedSections newExpanded)).

Definition markStageComplete (stage : PipelineStage) : Handler unit :=
  set (AddStageCompleted stage).

Definition initialMessage (snap : State) : string :=
  "I've uploaded a paper"
  +:+ match pdfFile snap with
      | Some f => " (PDF: " +:+ file_name f +:+ ")"
      | None => ""
      end
  +:+ (if Js.truthy (doiInput snap)
       then " (DOI: " +:+ doiInput snap +:+ ")" else "")
  +:+ (if Js.truthy (arxivInput snap)
       then " (arXiv: " +:+ arxivInput snap +:+ ")" else "")
  +:+ ". Please help me analyze it.".

Definition analyzeForm : Handler unit :=
  fn (snap ← closure;
      (if negb (bool_decide (is_Some (pdfFile snap)))
          && negb (Js.truthy (doiInput snap))
          && negb (Js.truthy (arxivInput snap))
       then return_ else mret ()) ;;
      set (SetIsLoading true) ;;
      set (SetCurrentStage parsing) ;;
      set (SetShowResults true) ;;
      (* Initial message to Discovery Coordinator *)
      set (SetChatMessages
             [ {| role := user; content := initialMessage snap |} ]) ;;
      try_catch
        (result ← callAIAgent (initialMessage snap) DISCOVERY_COORDINATOR;
         if succeeded result
         then
           let data := AiAgent.result (response result) in
           set (AppendChatMessage
                  {| role := assistant; content := user_message data |}) ;;
           set (SetIsLoading false)
         else mret ())
        (λ error,
           emit (ConsoleError error) ;;
           set (SetIsLoading false))).

Definition sendMessage : Handler unit :=
  fn (snap ← closure;
      (if negb (Js.truthy (Js.trim (userInput snap))) || isLoading snap
       then return_ else mret ()) ;;
      let message := userInput snap in
      set (SetUserInput "") ;;
      set (AppendChatMessage {| role := user; content := message |}) ;;
      set (SetIsLoading true) ;;
      try_catch
        ((* Send to Discovery Coordinator *)
         result ← callAIAgent message DISCOVERY_COORDINATOR;
         (if succeeded result
          then
            let data := AiAgent.result (response result) in
            set (AppendChatMessage
                   {| role := assistant; content := user_message data |}) ;;
            (* Simulate pipeline progression *)
            if String.eqb (next_action data) "trigger_ingestion"
            then
              set (SetCurrentStage parsing) ;;
              setTimeout SimulateDocumentIngestion 1500
            else mret ()
          else mret ()) ;;
         set (SetIsLoading false))
        (λ error,
           emit (ConsoleError error) ;;
           set (SetIsLoading false))).

(** *** The scripted pipeline run *)

Definition simulateQualityControl : Handler unit :=
  fn (markStageComplete quality_check ;;
      set (SetCurrentStage complete) ;;
      let mockQuality : QualityControlResult :=
        {| validation_status := "passed_with_warnings";
           summary_validation :=
             {| coherence_score := 0.95;
                factual_grounding_verified := true;
                hallucination_flags := [];
                redundancy_removed := [];
                summary_issues_found := [] |};
           recommendations_validation :=
             {| relevance_verified := true;
                all_recommendations_appropriate := true;
                recommendations_issues_found := [];
                recommendations_to_remove := [] |};
           uncertainty_flags := [];
           quality_score := 0.92;
           approved_for_delivery := true;
           corrections_applied := [] |} in
      set (SetQualityResult (Some mockQuality))).

Definition simulateRecommendations : Handler unit :=
  fn (markStageComplete finding_papers ;;
      set (SetCurrentStage quality_check) ;;
      let mockRecs : list Recommendation :=
        [ {| rank := 1;
             rec_title :=
               "BERT: Pre-training of Deep Bidirectional Transformers for Language Understanding";
             rec_authors := ["Jacob Devlin"; "Ming-Wei Chang"; "Kenton Lee"];
             rec_year := 2019;
             source := "arXiv";
             doi_or_arxiv_id := "arXiv:1810.04805";
             relevance_score := 0.97;
             relevance_explanation :=
               "Extends the Transformer architecture with significant advancements in pre-training for NLP tasks.";
             similarity_factors :=
               {| semantic_similarity := 0.92;
                  citation_overlap := 0.85;
                  methodology_match := 0.9;
                  recency_score := 0.7;
                  impact_score := 0.95;
                  interdisciplinary_relevance := 0.8 |};
             abstract_snippet :=
               "We introduce BERT, a method of pre-training language representations that obtains state-of-the-art results."
          |};
          {| rank := 2;
             rec_title :=
               "XLNet: Generalized Autoregressive Pretraining for Language Understanding";
             rec_authors := ["Zhilin Yang"; "Zihang Dai"; "Yiming Yang"];
             rec_year := 2019;
             source := "arXiv";
             doi_or_arxiv_id := "arXiv:1906.08237";
             relevance_score := 0.95;
             relevance_explanation :=
               "Builds upon Transformer with permutation-based training approach.";
             similarity_factors :=
               {| semantic_similarity := 0.9;
                  citation_overlap := 0.8;
                  methodology_match := 0.88;
                  recency_score := 0.7;
                  impact_score := 0.93;
                  interdisciplinary_relevance := 0.75 |};
             abstract_snippet :=
               "XLNet improves upon BERT by maximizing expected likelihood over permutations."
          |};
          {| rank := 3;
             rec_title := "Transformers in Vision: A Survey";
             rec_authors := ["Huggingface Community Members"];
             rec_year := 2021;
             source := "Semantic Scholar";
             doi_or_arxiv_id := "arXiv:2101.01169";
             relevance_score := 0.93;
             relevance_explanation :=
               "Showcases adaptation of Transformer architectures in computer vision.";
             similarity_factors :=
               {| semantic_similarity := 0.91;
                  citation_overlap := 0.82;
                  methodology_match := 0.87;
                  recency_score := 0.85;
                  impact_score := 0.86;
                  interdisciplinary_relevance := 0.9 |};
             abstract_snippet :=
               "Overview of research and development in visual transformers."
          |};
          {| rank := 4;
             rec_title :=
               "The Transformer Model for Language Understanding: A Review";
             rec_authors := ["Albert Model"];
             rec_year := 2020;
             source := "CrossRef";
             doi_or_arxiv_id := "doi:10.1016/j.artint.2020.103222";
             relevance_score := 0.92;
             relevance_explanation :=
               "Comprehensive review of Transformer models in language processing.";
             similarity_factors :=
               {| semantic_similarity := 0.88;
                  citation_overlap := 0.81;
                  methodology_match := 0.85;
                  recency_score := 0.75;
                  impact_score := 0.9;
                  interdisciplinary_relevance := 0.7 |};
             abstract_snippet :=
               "Reviews the evolution and impact of Transformer models."
          |};
          {| rank := 5;
             rec_title := "Language Models are Few-Shot Learners";
             rec_authors := ["Tom B. Brown"; "Benjamin Mann"; "Nick Ryder"];
             rec_year := 2020;
             source := "arXiv";
             doi_or_arxiv_id := "arXiv:2005.14165";
             relevance_score := 0.91;
             relevance_explanation :=
               "Demonstrates Transformer model capacity for few-shot learning.";
             similarity_factors :=
               {| semantic_similarity := 0.87;
                  citation_overlap := 0.79;
                  methodology_match := 0.83;
                  recency_score := 0.78;
                  impact_score := 0.92;
                  interdisciplinary_relevance := 0.85 |};
             abstract_snippet :=
               "Language models achieve impressive performance with few-shot learning capabilities."
          |} ] in
      set (SetRecommendations mockRecs) ;;
      setTimeout SimulateQualityControl 1500).

Definition simulateSummarization : Handler unit :=
  fn (markStageComplete summarizing ;;
      set (SetCurrentStage finding_papers) ;;
      let mockSummary : SummarizationResult :=
        {| summary :=
             "The attention mechanism has significantly advanced machine translation by allowing models to focus on pertinent parts of the input sequence intelligently. This architecture enhances performance by incorporating contextual information throughout the translation process.";
           focus_areas_addressed :=
             ["attention mechanism architecture"; "practical applications"];
           tone := "academic";
           depth_level := "detailed";
           key_points :=
             [ {| point :=
                    "Attention mechanism allows models to focus contextually on input sequences";
                  section_reference := "Introduction and Methods" |};
               {| point :=
                    "Types include additive and multiplicative attention";
                  section_reference := "Methods" |};
               {| point :=
                    "Transformers leverage attention for parallelization";
                  section_reference := "Architecture" |} ];
           uncertainties := [];
           word_count := 246 |} in
      set (SetSummaryResult (Some mockSummary)) ;;
      setTimeout SimulateRecommendations 2000).

Definition simulateUnderstanding : Handler unit :=
  fn (markStageComplete understanding ;;
      set (SetCurrentStage summarizing) ;;
      let mockUnderstanding : UnderstandingResult :=
        {| problem_statement :=
             "Addressing inefficiencies in handling long-range dependencies in sequence transduction models.";
           methodology :=
             {| approach :=
                  "Novel architecture using only self-attention mechanisms without recurrence.";
                techniques := ["self-attention"; "positional encoding"];
                methodology_section_citation :=
                  "Section 3: Model Architecture" |};
           results :=
             {| key_findings :=
                  [ "Significantly reduced training time through parallelization";
                    "State-of-the-art performance on translation benchmarks" ];
                results_section_citation := "Section 5: Results" |};
           limitations :=
             {| identified_limitations :=
                  [ "Requires large amounts of data and computational resources";
                    "Quadratic scaling with sequence length" ];
                limitations_section_citation := "Section 6: Discussion" |};
           key_claims :=
             [ {| claim :=
                    "Self-attention models dependencies regardless of distance";
                  claim_section_citation := "Section 3.2: Attention";
                  confidence := "high" |} ];
           paper_structure :=
             {| sections_analyzed :=
                  ["Introduction"; "Methodology"; "Results"; "Discussion"];
                has_clear_structure := true |} |} in
      set (SetUnderstandingResult (Some mockUnderstanding)) ;;
      setTimeout SimulateSummarization 2000).

Definition simulateDocumentIngestion : Handler unit :=
  fn (markStageComplete parsing ;;
      set (SetCurrentStage understanding) ;;
      (* Simulate document ingestion *)
      let mockDoc : DocumentIngestionResult :=
        {| title := "Attention Is All You Need";
           authors := ["Ashish Vaswani"; "Noam Shazeer"; "Niki Parmar"];
           abstract :=
             "The paper presents a new simple network architecture, the Transformer, based solely on attention mechanisms.";
           sections :=
             [ {| section_name := "Introduction";
                  section_content :=
                    "Neural networks for sequence transduction...";
                  chunk_id := 1 |};
               {| section_name := "Model Architecture";
                  section_content := "The Transformer model follows...";
                  chunk_id := 2 |};
               {| section_name := "Results";
                  section_content := "Experimental results show...";
                  chunk_id := 3 |} ];
           references := [];
           doc_validation_status := "valid";
           validation_errors := [] |} in
      set (SetDocumentInfo (Some mockDoc)) ;;
      setTimeout SimulateUnderstanding 2000).

(** The function a timer runs when it fires. *)
Definition callback (c : Callback) : Handler unit :=
  match c with
  | SimulateDocumentIngestion => simulateDocumentIngestion
  | SimulateUnderstanding => simulateUnderstanding
  | SimulateSummarization => simulateSummarization
  | SimulateRecommendations => simulateRecommendations
  | SimulateQualityControl => simulateQualityControl
  end.

(** The timers a trace has set, in order, each with its delay. *)
Definition timers (t : list Effect) : list (Callback * Z) :=
  omap (λ e, match e with SetTimeout c d => Some (c, d) | _ => None end) t.

(** The pending timers, each with the time it is due at, earliest first;
    a timer is queued behind those due no later than itself. *)
Fixpoint schedule (due : Z) (c : Callback) (pending : list (Z * Callback))
  : list (Z * Callback) :=
  match pending with
  | [] => [(due, c)]
  | (due', c') :: rest =>
      if (due' <=? due)%Z
      then (due', c') :: schedule due c rest
      else (due, c) :: pending
  end.

Definition schedule_all (now : Z) (set_ : list (Callback * Z))
    (pending : list (Z * Callback)) : list (Z * Callback) :=
  foldl (λ queue cd, schedule (now + cd.2) cd.1 queue) pending set_.

(** Let the pending timers fire, earliest first, each firing running its
    callback to the end and scheduling the timers the callback sets; at most
    [fuel] firings. *)
Fixpoint fire (fuel : nat) (env : Env) (pending : list (Z * Callback))
    (s : State) : State * list Effect :=
  match fuel, pending with
  | S fuel', (due, c) :: pending' =>
      let w := run (callback c) env s in
      let '(s', t) :=
        fire fuel' env (schedule_all due (timers (trace w)) pending')
          (cells w) in
      (s', trace w ++ t)
  | _, _ => (s, [])
  end.

(** *** Export *)

Definition LF : string := String "010"%char EmptyString.

Definition exportContent (sm : SummarizationResult) : string :=
  "# Research Paper Summary" +:+ LF +:+ LF +:+ summary sm +:+ LF +:+ LF
  +:+ "## Key Points" +:+ LF
  +:+ Js.join LF
        (map (λ p, "- " +:+ point p +:+ " (" +:+ section_reference p +:+ ")")
           (key_points sm)).

Definition exportSummary : Handler unit :=
  fn (snap ← closure;
      match summaryResult snap with
      | None => return_
      | Some sm => emit (Download "summary.md" (exportContent sm))
      end).

(** *** Observations *)

(** The values the current stage is set to, in order. *)
Definition stage_writes (t : list Effect) : list PipelineStage :=
  omap (λ e, match e with Set_ (SetCurrentStage v) => Some v | _ => None end)
    t.

(** The coordinator calls, in order. *)
Definition coordinator_calls (t : list Effect) : list (string * string) :=
  omap (λ e, match e with
             | CallAIAgent message agent_id => Some (message, agent_id)
             | _ => None
             end) t.

(** The files handed to the browser, in order. *)
Definition downloads (t : list Effect) : list (string * string) :=
  omap (λ e, match e with
             | Download filename content => Some (filename, content)
             | _ => None
             end) t.

(** [sendMessage] goes past its first line. *)
Definition sendable (s : State) : Prop :=
  Js.truthy (Js.trim (userInput s)) = true ∧ isLoading s = false.

(** [analyzeForm] goes past its first line: a reference is held. *)
Definition submittable (s : State) : Prop :=
  is_Some (pdfFile s) ∨ doiInput s ≠ "" ∨ arxivInput s ≠ "".

(** *** Intake handlers *)

Definition handleDrag (type : string) : Handler unit :=
  fn (if String.eqb type "dragenter" || String.eqb type "dragover"
      then set (SetDragActive true)
      else if String.eqb type "dragleave"
           then set (SetDragActive false)
           else mret ()).

Definition handleDrop (files : list File) : Handler unit :=
  fn (set (SetDragActive false) ;;
      match files with
      | file :: _ =>
          if String.eqb (file_type file) "application/pdf"
          then set (SetPdfFile (Some file))
          else mret ()
      | [] => mret ()
      end).

Definition handleFileChange (files : list File) : Handler unit :=
  fn (match files with
      | file :: _ => set (SetPdfFile (Some file))
      | [] => mret ()
      end).

(** *** The stage indicator *)

(** How [PipelineIndicator] draws the circle of a stage: a check mark when
    the stage is completed, else a spinner when it is the current stage, else
    a clock. *)
Inductive Marker : Type := CheckMark | Spinner | Clock.

Definition marker (s : State) (id : PipelineStage) : Marker :=
  if decide (id ∈ stagesCompleted s) then CheckMark
  else if decide (currentStage s = id) then Spinner
  else Clock.

(** The stages the indicator shows, in order. *)
Definition indicator_stages : list PipelineStage :=
  [parsing; understanding; summarizing; finding_papers; quality_check].

Definition PipelineIndicator (s : State) : list (PipelineStage * Marker) :=
  map (λ id, (id, marker s id)) indicator_stages.

(** *** The page as a whole *)

(** What the user and the timers make the page run. *)
Inductive Action : Type :=
| HandleDrag (type : string)
| HandleDrop (files : list File)
| HandleFileChange (files : list File)
| ChangeDoiInput (value : string)
| ChangeArxivInput (value : string)
| ChangeUserInput (value : string)
| ToggleSidebar
| ToggleSection (section : string)
| AnalyzeForm
| SendMessage
| ExportSummary
| Fire (c : Callback).

Definition handler (a : Action) : Handler unit :=
  match a with
  | HandleDrag type => handleDrag type
  | HandleDrop files => handleDrop files
  | HandleFileChange files => handleFileChange files
  | ChangeDoiInput value => set (SetDoiInput value)
  | ChangeArxivInput value => set (SetArxivInput value)
  | ChangeUserInput value => set (SetUserInput value)
  | ToggleSidebar =>
      snap ← closure; set (SetSidebarOpen (negb (sidebarOpen snap)))
  | ToggleSection section => toggleSection section
  | AnalyzeForm => analyzeForm
  | SendMessage => sendMessage
  | ExportSummary => exportSummary
  | Fire c => callback c
  end.

(** The actions in order, user actions and timer firings in any
    interleaving; the result is the final state and all the effects. *)
Fixpoint session (script : list (Env * Action)) (s : State)
  : State * list Effect :=
  match script with
  | [] => (s, [])
  | (env, a) :: rest =>
      let w := run (handler a) env s in
      let '(s', t) := session rest (cells w) in
      (s', trace w ++ t)
  end.

(** The coordinator call did not succeed: rejected, or a reply that does
    not report success. *)
Definition call_failed
    (o : Js.Outcome (AgentResult DiscoveryCoordinatorResult)) : bool :=
  match o with
  | Js.Rejected _ => true
  | Js.Resolved r => negb (succeeded r)
  end.

(** The diagnostics logged, in order. *)
Definition console_errors (t : list Effect) : list string :=
  omap (λ e, match e with ConsoleError error => Some error | _ => None end) t.

(** The stage a callback marks as completed and the stage it makes current. *)
Definition completes (c : Callback) : PipelineStage :=
  match c with
  | SimulateDocumentIngestion => parsing
  | SimulateUnderstanding => understanding
  | SimulateSummarization => summarizing
  | SimulateRecommendations => finding_papers
  | SimulateQualityControl => quality_check
  end.

(** The results the page holds. *)
Definition held_results (s : State) :=
  (documentInfo s, understandingResult s, summaryResult s, recommendations s,
   qualityResult s).

End Pipeline.

(** * Concrete sessions *)

Module Scenario.

Import Page.

Definition paper_pdf : File :=
  {| file_name := "paper.pdf"; file_type := "application/pdf" |}.

(** A coordinator that answers every turn with a question and no results. *)
Definition asks_back : AgentResult Payload :=
  {| success := true;
     response :=
       {| status := "success";
          result :=
            {| user_message := Some "What would you like to focus on?";
               aggregated_results := None |} |} |}.

(** A coordinator reply whose status is not success. *)
Definition soft_failure : AgentResult Payload :=
  {| success := false;
     response :=
       {| status := "error";
          result := {| user_message := None; aggregated_results := None |} |}
  |}.

Definition reply_with (ar : AggregatedResults) : AgentResult Payload :=
  {| success := true;
     response :=
       {| status := "success";
          result :=
            {| user_message := Some "Here is the analysis.";
               aggregated_results := Some ar |} |} |}.

Definition attention : DocumentInfo :=
  {| title := "Attention Is All You Need";
     authors := ["Ashish Vaswani"; "Noam Shazeer"];
     abstract := "The Transformer, based solely on attention mechanisms.";
     year := Some 2017%Z |}.

Definition takeaway : KeyPoint :=
  {| point := "Attention replaces recurrence";
     section_reference := "Section 3" |}.

(** Results that carry a document info and nothing else. *)
Definition only_document_info : AggregatedResults :=
  {| document_info := Some attention; paper_analysis := None;
     summary := None; agg_recommendations := None;
     quality_validation := None |}.

(** Results whose summary object has no [key_points]. *)
Definition summary_without_key_points : AggregatedResults :=
  {| document_info := None; paper_analysis := None;
     summary := Some {| key_points := None |};
     agg_recommendations := None; quality_validation := None |}.

(** The upload transport reports [{success: false, error: "disk full"}]. *)
Definition upload_fails : Env :=
  {| uploadFiles_settles := λ _,
       Js.Resolved {| upload_success := false; asset_ids := [];
                      upload_error := Some "disk full" |};
     callAIAgent_settles := λ _ _ _, Js.Resolved asks_back;
     clock := Z.of_nat |}.

(** The upload succeeds with the asset id [a1]; the coordinator answers
    with [reply]. *)
Definition upload_succeeds (reply : Js.Outcome (AgentResult Payload)) : Env :=
  {| uploadFiles_settles := λ _,
       Js.Resolved {| upload_success := true; asset_ids := ["a1"];
                      upload_error := None |};
     callAIAgent_settles := λ _ _ _, reply;
     clock := Z.of_nat |}.

(** The states below are reached from the first render by the actions
    listed. *)

(** The intake holds the file [paper.pdf] and nothing else. *)
Definition file_chosen : State :=
  (session [ (upload_fails, HandleFileChange [paper_pdf]) ] initial).1.

(** The intake holds a DOI field of one space and nothing else. *)
Definition blank_doi : State :=
  (session [ (upload_fails, ChangeDoiInput " ") ] initial).1.

(** After a successful upload and the opening turn. *)
Definition in_conversation : State :=
  (session [ (upload_succeeds (Js.Resolved asks_back), AnalyzeDocument) ]
     file_chosen).1.

(** The user has typed a request. *)
Definition request_typed : State :=
  (session [ (upload_fails, ChangeUserInput "Focus on methodology") ]
     in_conversation).1.

(** Results whose summary holds one key point. *)
Definition summary_with_takeaway : AggregatedResults :=
  {| document_info := None; paper_analysis := None;
     summary := Some {| key_points := Some [takeaway] |};
     agg_recommendations := None; quality_validation := None |}.

(** The request has been answered with a summary, whose key point is now
    held, and the user has typed a follow-up. *)
Definition followup_typed : State :=
  (session
     [ (upload_succeeds (Js.Resolved (reply_with summary_with_takeaway)),
        SendMessage);
       (upload_fails, ChangeUserInput "Anything else?") ]
     request_typed).1.

(** A title of two lines. *)
Definition two_line_title : DocumentInfo :=
  {| title := "Deep" +:+ LF +:+ "Nets"; authors := []; abstract := "";
     year := None |}.

(** The request has been answered with the document info [doc] and nothing
    else. *)
Definition document_info_held (doc : DocumentInfo) : State :=
  (session
     [ (upload_succeeds
          (Js.Resolved
             (reply_with
                {| document_info := Some doc; paper_analysis := None;
                   summary := None; agg_recommendations := None;
                   quality_validation := None |})),
        SendMessage) ]
     request_typed).1.

(** The upload succeeds with the asset id [a1]; the coordinator call is
    rejected. *)
Definition coordinator_rejects : Env :=
  upload_succeeds (Js.Rejected "network down").

(** A later upload: it succeeds with the asset id [a2]; the coordinator
    answers with [reply]. *)
Definition second_upload_succeeds (reply : Js.Outcome (AgentResult Payload))
  : Env :=
  {| uploadFiles_settles := λ _,
       Js.Resolved {| upload_success := true; asset_ids := ["a2"];
                      upload_error := None |};
     callAIAgent_settles := λ _ _ _, reply;
     clock := Z.of_nat |}.

(** The upload call itself is rejected. *)
Definition upload_rejects : Env :=
  {| uploadFiles_settles := λ _, Js.Rejected "network down";
     callAIAgent_settles := λ _ _ _, Js.Resolved asks_back;
     clock := Z.of_nat |}.

(** The intake holds a DOI and nothing else. *)
Definition doi_entered : State :=
  (session [ (upload_fails, ChangeDoiInput "10.1000/x") ] initial).1.

(** The user has typed blanks only. *)
Definition blanks_typed : State :=
  (session [ (upload_fails, ChangeUserInput "   ") ] in_conversation).1.

End Scenario.

Module PipelineScenario.

Import Pipeline.

Definition idle_reply : DiscoveryCoordinatorResult :=
  {| workflow_stage := "conversation";
     conversation_state :=
       {| user_input_received := false;
          summarization_prompt_provided := false;
          ready_to_proceed := false |};
     next_action := "await_user_input";
     user_message := "What would you like to focus on?";
     errors := [] |}.

Definition trigger_reply : DiscoveryCoordinatorResult :=
  {| workflow_stage := "ingestion";
     conversation_state :=
       {| user_input_received := true;
          summarization_prompt_provided := true;
          ready_to_proceed := true |};
     next_action := "trigger_ingestion";
     user_message := "Starting the analysis.";
     errors := [] |}.

(** The coordinator answers every call with [r]. *)
Definition answers (r : AgentResult DiscoveryCoordinatorResult) : Env :=
  {| callAIAgent_settles := λ _ _, Js.Resolved r |}.

Definition soft_failure : AgentResult DiscoveryCoordinatorResult :=
  {| success := false;
     response := {| status := "error"; result := idle_reply |} |}.

Definition success_with (d : DiscoveryCoordinatorResult)
  : AgentResult DiscoveryCoordinatorResult :=
  {| success := true; response := {| status := "success"; result := d |} |}.

(** The intake holds a DOI and nothing else. *)
Definition doi_entered : State := apply (SetDoiInput "10.1000/x") initial.

(** The intake holds a DOI field of one space and nothing else. *)
Definition blank_doi : State := apply (SetDoiInput " ") initial.

(** The coordinator call is rejected. *)
Definition rejects : Env :=
  {| callAIAgent_settles := λ _ _, Js.Rejected "network down" |}.

(** The opening turn has been answered and the user has typed a request. *)
Definition request_typed : State :=
  (session [ (answers (success_with idle_reply), ChangeDoiInput "10.1000/x");
             (answers (success_with idle_reply), AnalyzeForm);
             (answers (success_with idle_reply),
              ChangeUserInput " Focus on methodology ") ]
     initial).1.

End PipelineScenario.

(** * Properties of [src/app/page.tsx] *)

Module PageSpec.

Import Page.

#[local] Set Warnings "-clear-no-such-hyp".
#[local] Arguments String.append : simpl never.
#[local] Arguments Js.trim : simpl never.
#[local] Arguments Js.truthy : simpl never.
#[local] Arguments Js.or_else : simpl never.
#[local] Arguments initialMessage : simpl never.
#[local] Arguments exportContent : simpl never.
#[local] Arguments exportFilename : simpl never.

(** Unfold the handler combinators and evaluate as far as the known parts
    of the state and of the environment allow. *)
Ltac evaluate :=
  unfold run, completion, handler, analyzeDocument, sendMessage, aggregate,
    exportSummary, toggleSection, resetAnalysis, handleDrag, handleDrop,
    handleFileChange, uploadFiles, callAIAgent, new_Date, set, fn,
    try_catch, closure, ask, emit, modify, tick, await, return_, throw,
    mbind, mret, handler_bind, handler_ret, bind, ret in *;
  cbn in *.

(** Case analysis on every branch a handler can take, innermost scrutinee
    first. *)
Ltac branch :=
  match goal with
  | |- context [match ?x with _ => _ end] =>
      lazymatch x with
      | context [match _ with _ => _ end] => fail
      | _ => destruct x eqn:?
      end
  end.

Ltac branches := repeat (branch; cbn in *; simplify_eq).

(** Membership in an evaluated trace. *)
Ltac in_trace := apply list_elem_of_In; cbn; tauto.

Lemma truthy_empty (x : string) : Js.truthy x = false ↔ x = "".
Proof. destruct x; unfold Js.truthy; split; congruence. Qed.

Lemma truthy_nonempty (x : string) : Js.truthy x = true ↔ x ≠ "".
Proof. destruct x; unfold Js.truthy; split; congruence. Qed.

(** ** The handlers at work *)

(** No handler lets an exception escape: every call completes normally,
    whatever the remote calls do. *)
Lemma handlers_complete (a : Action) (s : State) (env : Env) :
  completion (handler a) env s = Normal ().
Proof.
  destruct s as [pf doi arx drag ids msgs inp load stg doc und kts recs qs
                 exp side].
  destruct a; try (vm_compute; reflexivity); evaluate; branches; reflexivity.
Qed.

(** The file [paper.pdf] is uploaded as asset [a1], the opening turn is sent
    and answered with a question and no results: the stage is [conversation],
    the log has the two turns, and no result is held. *)
Example opening_turn :
  let s := Scenario.in_conversation in
  stage s = conversation
  ∧ uploadedAssetIds s = ["a1"]
  ∧ chatMessages s
    = [ {| role := user;
           content :=
             "I've uploaded a research paper (PDF: paper.pdf). Please help me analyze it.";
           timestamp := Some 0%Z |};
        {| role := assistant;
           content := "What would you like to focus on?";
           timestamp := Some 1%Z |} ]
  ∧ held_results s = held_results initial.
Proof. repeat split; vm_compute; reflexivity. Qed.

(** The request is answered with a document info: the stage is [complete]
    and the title is held. *)
Example results_arrive :
  let s := Scenario.document_info_held Scenario.attention in
  stage s = complete
  ∧ (title <$> documentInfo s) = Some "Attention Is All You Need"
  ∧ length (chatMessages s) = 4.
Proof. repeat split; vm_compute; reflexivity. Qed.

(** ** Upload failure *)

(** C5.  When the upload transport reports failure, [analyzeDocument] ends
    with the stage at [idle] and the loading flag cleared, the conversation
    log is exactly one assistant turn carrying the transport's error text,
    and no coordinator call has been made. *)
Theorem upload_failure_returns_to_idle
    (s : State) (env : Env) (file : File) (up : UploadResult) :
  pdfFile s = Some file →
  uploadFiles_settles env file = Js.Resolved up →
  upload_success up = false →
  let w := run analyzeDocument env s in
  stage (cells w) = idle
  ∧ isLoading (cells w) = false
  ∧ chatMessages (cells w)
    = [ {| role := assistant;
           content := "Failed to upload PDF: "
                      +:+ Js.template_opt (upload_error up)
                      +:+ ". Please try again.";
           timestamp := Some (clock env 0) |} ]
  ∧ coordinator_calls (trace w) = [].
Proof.
  intros Hfile Hup Hfail. destruct s; cbn in Hfile; subst.
  evaluate. rewrite Hup. cbn. rewrite Hfail. cbn. done.
Qed.

Lemma upload_failure_returns_to_idle_witness :
  let w := run analyzeDocument Scenario.upload_fails Scenario.file_chosen in
  stage (cells w) = idle
  ∧ isLoading (cells w) = false
  ∧ chatMessages (cells w)
    = [ {| role := assistant;
           content := "Failed to upload PDF: disk full. Please try again.";
           timestamp := Some 0%Z |} ]
  ∧ coordinator_calls (trace w) = [].
Proof.
  apply (upload_failure_returns_to_idle Scenario.file_chosen
           Scenario.upload_fails Scenario.paper_pdf
           {| upload_success := false; asset_ids := [];
              upload_error := Some "disk full" |});
    reflexivity.
Defined.

(** ** Intake guard *)

(** C7, as the claim states it, fails: a DOI field holding one space is
    empty after trimming, no file and no arXiv reference are held, and yet
    [analyzeDocument] calls the coordinator. *)
Lemma blank_doi_reaches_coordinator :
  let s := Scenario.blank_doi in
  let w := run analyzeDocument Scenario.upload_fails s in
  pdfFile s = None
  ∧ Js.trim (doiInput s) = ""
  ∧ Js.trim (arxivInput s) = ""
  ∧ coordinator_calls (trace w)
    = [ ("I've uploaded a research paper (DOI:  ). Please help me analyze it.",
         DISCOVERY_COORDINATOR, []) ].
Proof. repeat split; vm_compute; reflexivity. Qed.

(** C7, amended.  When no file is held and the DOI and arXiv fields are the
    empty string (the fields are not trimmed), [analyzeDocument] returns at
    once: it issues no effect at all, so no upload and no coordinator call,
    and leaves the state as it was. *)
Theorem no_reference_no_call (s : State) (env : Env) :
  pdfFile s = None → doiInput s = "" → arxivInput s = "" →
  let w := run analyzeDocument env s in
  trace w = [] ∧ cells w = s ∧ completion analyzeDocument env s = Normal ().
Proof.
  intros Hfile Hdoi Harxiv. destruct s; cbn in *; subst.
  evaluate. done.
Qed.

Lemma no_reference_no_call_witness :
  let w := run analyzeDocument Scenario.upload_fails initial in
  trace w = [] ∧ cells w = initial
  ∧ completion analyzeDocument Scenario.upload_fails initial = Normal ().
Proof.
  apply (no_reference_no_call initial Scenario.upload_fails); reflexivity.
Defined.

(** ** A conversation turn *)

(** What [sendMessage] leaves behind when the coordinator call settles with
    a reply that carries no aggregated results: the input box is cleared and
    the two turns of the exchange are appended. *)
Lemma sendMessage_reply_without_results
    (s : State) (env : Env) (r : AgentResult Payload) :
  sendable s →
  callAIAgent_settles env (Js.trim (userInput s)) DISCOVERY_COORDINATOR
    (uploadedAssetIds s) = Js.Resolved r →
  aggregated_results (result (response r)) = None →
  run sendMessage env s
  = {| cells :=
         apply (SetChatMessages
                  (chatMessages s
                   ++ [ {| role := user; content := Js.trim (userInput s);
                           timestamp := Some (clock env 0) |};
                        {| role := assistant; content := reply_text r;
                           timestamp := Some (clock env 1) |} ]))
           (apply (SetUserInput "") s);
       trace :=
         [ Set_ (SetUserInput "");
           Set_ (AppendChatMessage
                   {| role := user; content := Js.trim (userInput s);
                      timestamp := Some (clock env 0) |});
           Set_ (SetIsLoading true);
           CallAIAgent (Js.trim (userInput s)) DISCOVERY_COORDINATOR
             (uploadedAssetIds s);
           Set_ (AppendChatMessage
                   {| role := assistant; content := reply_text r;
                      timestamp := Some (clock env 1) |});
           Set_ (SetIsLoading false) ];
       ticks := 2 |}.
Proof.
  intros [Hinput Hidle] Hreply Hnone. destruct s; cbn in *; subst.
  evaluate. rewrite Hinput. cbn. rewrite Hreply. cbn.
  unfold reply_text. destruct (succeeded r); cbn.
  - rewrite Hnone. cbn. by rewrite <- app_assoc.
  - by rewrite <- app_assoc.
Qed.

(** C3.  For every coordinator reply whose payload lacks an aggregated
    results object, [sendMessage] writes no stage, leaves the stage and every
    held result (document info, understanding, key takeaways,
    recommendations, quality score) as they were, and the conversation log
    grows by exactly the two turns of the exchange: the trimmed user input
    and the assistant's reply. *)
Theorem reply_without_results_only_extends_log
    (s : State) (env : Env) (r : AgentResult Payload) :
  sendable s →
  callAIAgent_settles env (Js.trim (userInput s)) DISCOVERY_COORDINATOR
    (uploadedAssetIds s) = Js.Resolved r →
  aggregated_results (result (response r)) = None →
  let w := run sendMessage env s in
  stage (cells w) = stage s
  ∧ stage_writes (trace w) = []
  ∧ held_results (cells w) = held_results s
  ∧ chatMessages (cells w)
    = chatMessages s
      ++ [ {| role := user; content := Js.trim (userInput s);
              timestamp := Some (clock env 0) |};
           {| role := assistant; content := reply_text r;
              timestamp := Some (clock env 1) |} ]
  ∧ uploadedAssetIds (cells w) = uploadedAssetIds s
  ∧ isLoading (cells w) = false.
Proof.
  intros Hsend Hreply Hnone w. subst w.
  rewrite (sendMessage_reply_without_results s env r Hsend Hreply Hnone).
  destruct Hsend as [_ Hidle]. destruct s; cbn in *. done.
Qed.

Lemma reply_without_results_only_extends_log_witness :
  let s := Scenario.request_typed in
  let w := run sendMessage
             (Scenario.upload_succeeds (Js.Resolved Scenario.asks_back)) s in
  stage (cells w) = conversation
  ∧ stage_writes (trace w) = []
  ∧ held_results (cells w) = held_results s
  ∧ chatMessages (cells w)
    = chatMessages s
      ++ [ {| role := user; content := "Focus on methodology";
              timestamp := Some 0%Z |};
           {| role := assistant;
              content := "What would you like to focus on?";
              timestamp := Some 1%Z |} ]
  ∧ uploadedAssetIds (cells w) = ["a1"]
  ∧ isLoading (cells w) = false.
Proof.
  apply (reply_without_results_only_extends_log Scenario.request_typed
           (Scenario.upload_succeeds (Js.Resolved Scenario.asks_back))
           Scenario.asks_back);
    [split; reflexivity | reflexivity | reflexivity].
Defined.

(** C2, as the claim states it, fails: the reply carries aggregated results
    whose summary has no [key_points]; the sub-field [summary.key_points] is
    absent, and yet the held key takeaways are replaced by the empty list. *)
Lemma summary_without_key_points_clears_takeaways :
  let s := Scenario.followup_typed in
  let ar := Scenario.summary_without_key_points in
  let env := Scenario.upload_succeeds (Js.Resolved (Scenario.reply_with ar)) in
  (summary ar ≫= key_points) = None
  ∧ keyTakeaways s = [Scenario.takeaway]
  ∧ keyTakeaways (cells (run sendMessage env s)) = [].
Proof. repeat split; vm_compute; reflexivity. Qed.

(** C2, amended.  For every successful reply whose payload contains an
    aggregated results object, [sendMessage] sets the stage to [analyzing]
    and then to [complete]; each of [document_info], [paper_analysis],
    [recommendations] that is present replaces the held value wholesale and
    each that is absent leaves it unchanged; a present [summary] sets the key
    takeaways to its [key_points], or to the empty list when it has none, and
    an absent [summary] leaves them unchanged; a present
    [quality_validation] sets the quality score to its [quality_score],
    whatever it holds, and an absent one leaves it unchanged. *)
Theorem reply_with_results_is_merged
    (s : State) (env : Env) (r : AgentResult Payload)
    (ar : AggregatedResults) :
  sendable s →
  callAIAgent_settles env (Js.trim (userInput s)) DISCOVERY_COORDINATOR
    (uploadedAssetIds s) = Js.Resolved r →
  succeeded r = true →
  aggregated_results (result (response r)) = Some ar →
  let w := run sendMessage env s in
  stage_writes (trace w) = [analyzing; complete]
  ∧ stage (cells w) = complete
  ∧ documentInfo (cells w)
    = match document_info ar with
      | Some d => Some d
      | None => documentInfo s
      end
  ∧ understanding (cells w)
    = match paper_analysis ar with
      | Some u => Some u
      | None => understanding s
      end
  ∧ keyTakeaways (cells w)
    = match summary ar with
      | Some sm => default [] (key_points sm)
      | None => keyTakeaways s
      end
  ∧ recommendations (cells w)
    = match agg_recommendations ar with
      | Some rs => rs
      | None => recommendations s
      end
  ∧ qualityScore (cells w)
    = match quality_validation ar with
      | Some qv => quality_score qv
      | None => qualityScore s
      end.
Proof.
  intros [Hinput Hidle] Hreply Hok Hsome. destruct s; cbn in *; subst.
  evaluate. rewrite Hinput. cbn. rewrite Hreply. cbn. rewrite Hok. cbn.
  rewrite Hsome. cbn.
  destruct ar as [[d|] [u|] [sm|] [rs|] [qv|]]; cbn;
    rewrite ?omap_app; cbn; done.
Qed.

Lemma reply_with_results_is_merged_witness :
  let s := Scenario.followup_typed in
  let env :=
    Scenario.upload_succeeds
      (Js.Resolved (Scenario.reply_with Scenario.only_document_info)) in
  let w := run sendMessage env s in
  stage_writes (trace w) = [analyzing; complete]
  ∧ stage (cells w) = complete
  ∧ documentInfo (cells w) = Some Scenario.attention
  ∧ understanding (cells w) = None
  ∧ keyTakeaways (cells w) = [Scenario.takeaway]
  ∧ recommendations (cells w) = []
  ∧ qualityScore (cells w) = Js.null.
Proof.
  apply (reply_with_results_is_merged Scenario.followup_typed
           (Scenario.upload_succeeds
              (Js.Resolved (Scenario.reply_with Scenario.only_document_info)))
           (Scenario.reply_with Scenario.only_document_info)
           Scenario.only_document_info);
    [split; reflexivity | reflexivity | reflexivity | reflexivity].
Defined.

(** ** The loading flag *)

(** [sendMessage] in this file clears the loading flag on every path past
    its guard: success, soft failure and thrown exception. *)
Lemma sendMessage_clears_loading (s : State) (env : Env) :
  sendable s →
  let w := run sendMessage env s in
  isLoading (cells w) = false
  ∧ Set_ (SetIsLoading true) ∈ trace w
  ∧ completion sendMessage env s = Normal ().
Proof.
  intros [Hinput Hidle]. destruct s; cbn in *; subst.
  evaluate. rewrite Hinput. cbn.
  branches; (split; [done | split; [in_trace | done]]).
Qed.

(** [analyzeDocument] clears the loading flag on every path past its
    guard. *)
Lemma analyzeDocument_clears_loading (s : State) (env : Env) :
  submittable s →
  let w := run analyzeDocument env s in
  isLoading (cells w) = false
  ∧ Set_ (SetIsLoading true) ∈ trace w
  ∧ completion analyzeDocument env s = Normal ().
Proof.
  intros Hsub. destruct s as [pf doi arx ? ? ? ? ? ? ? ? ? ? ? ? ?].
  unfold submittable in Hsub; cbn in Hsub.
  assert (negb (bool_decide (is_Some pf)) && negb (Js.truthy doi)
          && negb (Js.truthy arx) = false) as Hguard.
  { destruct Hsub as [[f ->] | [H | H]]; [done | |].
    - apply truthy_nonempty in H. rewrite H. by rewrite andb_false_r.
    - apply truthy_nonempty in H. rewrite H. by rewrite andb_false_r. }
  evaluate. rewrite Hguard. cbn.
  branches; (split; [done | split; [in_trace | done]]).
Qed.

(** ** The stage *)

(** C1, as the claim states it, fails: [analyzeDocument] sets the stage to
    [uploading], awaits the upload, and when the upload fails sets the stage
    back to [idle], an earlier stage, without any reset. *)
Lemma upload_failure_sets_stage_backward :
  let s := Scenario.file_chosen in
  let w := run analyzeDocument Scenario.upload_fails s in
  trace w
  = [ Set_ (SetIsLoading true);
      Set_ (SetStage uploading);
      UploadFiles Scenario.paper_pdf;
      Set_ (SetChatMessages
              [ {| role := assistant;
                   content :=
                     "Failed to upload PDF: disk full. Please try again.";
                   timestamp := Some 0%Z |} ]);
      Set_ (SetIsLoading false);
      Set_ (SetStage idle) ]
  ∧ stage_writes (trace w) = [uploading; idle]
  ∧ never_backward (stage s) (stage_writes (trace w)) = false.
Proof. repeat split; vm_compute; reflexivity. Qed.

Lemma sendMessage_stage_writes (s : State) (env : Env) :
  let w := run sendMessage env s in
  (stage_writes (trace w) = [] ∧ stage (cells w) = stage s)
  ∨ (stage_writes (trace w) = [analyzing; complete]
     ∧ stage (cells w) = complete
     ∧ call_failed
         (callAIAgent_settles env (Js.trim (userInput s))
            DISCOVERY_COORDINATOR (uploadedAssetIds s)) = false).
Proof.
  destruct s as [pf doi arx drag ids msgs inp load stg doc und kts recs qs
                 exp side].
  evaluate.
  destruct (Js.truthy _), load; cbn; [by left | | by left | by left].
  destruct (callAIAgent_settles _ _ _ _) as [r | e]; cbn; [| by left].
  destruct (succeeded r) eqn:Hok; cbn; [| by left].
  destruct (aggregated_results _) as [ar |]; cbn; [| by left].
  right.
  destruct ar as [[d|] [u|] [sm|] [rs|] [qv|]]; cbn; done.
Qed.

Lemma analyzeDocument_stage_writes (s : State) (env : Env) :
  let w := run analyzeDocument env s in
  (stage_writes (trace w) = [] ∧ stage (cells w) = stage s)
  ∨ (stage_writes (trace w) = [uploading; conversation]
     ∧ stage (cells w) = conversation)
  ∨ (stage_writes (trace w) = [uploading; idle]
     ∧ stage (cells w) = idle
     ∧ ∃ file, pdfFile s = Some file
               ∧ upload_failed (uploadFiles_settles env file) = true)
  ∨ (stage_writes (trace w) = [uploading; conversation; idle]
     ∧ stage (cells w) = idle
     ∧ ∃ assets error,
         callAIAgent_settles env (initialMessage s) DISCOVERY_COORDINATOR
           assets = Js.Rejected error).
Proof.
  destruct s as [pf doi arx drag ids msgs inp load stg doc und kts recs qs
                 exp side].
  evaluate.
  branches;
    first [ by left
          | by right; left
          | right; right; left; split; [done | split; [done |]];
            eexists; split; [done |];
            match goal with H : uploadFiles_settles _ _ = _ |- _ =>
              rewrite H end;
            cbn; by rewrite ?negb_true_iff
          | right; right; right; split; [done | split; [done |]];
            by do 2 eexists ].
Qed.

Lemma other_handlers_leave_stage (a : Action) (s : State) (env : Env) :
  continues_session a = true → a ≠ SendMessage →
  let w := run (handler a) env s in
  stage_writes (trace w) = [] ∧ stage (cells w) = stage s.
Proof.
  intros Hcont Hsend. destruct s, a; try done; evaluate; branches; done.
Qed.

Lemma sendMessage_stage_exact (s : State) (env : Env) :
  let w := run sendMessage env s in
  let writes :=
    Js.truthy (Js.trim (userInput s)) && negb (isLoading s)
    && carries_results
         (callAIAgent_settles env (Js.trim (userInput s))
            DISCOVERY_COORDINATOR (uploadedAssetIds s)) in
  stage_writes (trace w) = (if writes then [analyzing; complete] else [])
  ∧ stage (cells w) = (if writes then complete else stage s).
Proof.
  destruct s as [pf doi arx drag ids msgs inp load stg doc und kts recs qs
                 exp side].
  evaluate.
  destruct (Js.truthy _), load; cbn; [done | | done | done].
  destruct (callAIAgent_settles _ _ _ _) as [r | e]; cbn; [| done].
  destruct (succeeded r) eqn:Hok; cbn; [| done].
  destruct (aggregated_results _) as [ar |]; cbn; [| done].
  destruct ar as [[d|] [u|] [sm|] [rs|] [qv|]]; cbn; done.
Qed.

Lemma submittable_passes (s : State) :
  submittable s →
  negb (bool_decide (is_Some (pdfFile s))) && negb (Js.truthy (doiInput s))
  && negb (Js.truthy (arxivInput s)) = false.
Proof.
  intros [[f Hf] | [H | H]].
  - by rewrite Hf.
  - apply truthy_nonempty in H. rewrite H. by rewrite andb_false_r.
  - apply truthy_nonempty in H. rewrite H. by rewrite andb_false_r.
Qed.

Lemma analyzeDocument_stage_exact (s : State) (env : Env) :
  let w := run analyzeDocument env s in
  (pdfFile s = None → doiInput s = "" → arxivInput s = "" →
   stage_writes (trace w) = [] ∧ stage (cells w) = stage s)
  ∧ (submittable s →
     (∀ file, pdfFile s = Some file →
              upload_failed (uploadFiles_settles env file) = true →
              stage_writes (trace w) = [uploading; idle]
              ∧ stage (cells w) = idle)
     ∧ (∀ assets, opening_assets s env assets →
          let throws :=
            thrown (callAIAgent_settles env (initialMessage s)
                      DISCOVERY_COORDINATOR assets) in
          stage_writes (trace w)
          = (if throws then [uploading; conversation; idle]
             else [uploading; conversation])
          ∧ stage (cells w) = (if throws then idle else conversation))).
Proof.
  cbn zeta. split.
  - intros Hfile Hdoi Harxiv.
    destruct s as [pf doi arx drag ids msgs inp load stg doc und kts recs qs
                   exp side].
    cbn in *; subst. evaluate. done.
  - intros Hsub. apply submittable_passes in Hsub.
    destruct s as [pf doi arx drag ids msgs inp load stg doc und kts recs qs
                   exp side].
    cbn in Hsub. split.
    + intros file Hfile Hfailed. cbn in Hfile; subst.
      evaluate.
      destruct (uploadFiles_settles env file) as [up | e]; cbn in *; [| done].
      apply negb_true_iff in Hfailed. rewrite Hfailed. done.
    + intros assets Hassets. unfold opening_assets in Hassets.
      cbn in Hassets. destruct pf as [file |].
      * destruct Hassets as (up & Hup & Hok & <-).
        evaluate. rewrite Hup. cbn. rewrite Hok. cbn.
        destruct (callAIAgent_settles _ _ _ _) as [r | e]; cbn; [| done].
        destruct (succeeded r); done.
      * subst assets. evaluate. rewrite Hsub. cbn.
        destruct (callAIAgent_settles _ _ _ _) as [r | e]; cbn; [| done].
        destruct (succeeded r); done.
Qed.

Lemma resetAnalysis_stage_write (s : State) (env : Env) :
  stage_writes (trace (run resetAnalysis env s)) = [idle].
Proof.
  destruct s as [pf doi arx drag ids msgs inp load stg doc und kts recs qs
                 exp side].
  reflexivity.
Qed.

(** C1, amended.  The stage is written by [analyzeDocument], [sendMessage]
    and the reset only: every other handler writes no stage, and the reset
    writes [idle].

    [sendMessage] writes the stage exactly when it passes its guard and the
    call resolves with a successful reply that carries aggregated results,
    and then writes [analyzing] followed by [complete] and ends at
    [complete]; in every other case, so on every failure path, it writes
    nothing and the stage is as it was.  It never ends at an earlier stage
    than it started at.

    [analyzeDocument] writes nothing when no reference is held.  With a
    reference held it writes [uploading]; when the upload of the held file
    reports failure or throws it then writes [idle] and ends there; when the
    upload, if any, has succeeded it writes [conversation], and when the
    coordinator call throws it then writes [idle] and ends there, else it
    ends at [conversation].  These are all the cases. *)
Theorem stage_writes_of_every_handler (s : State) (env : Env) :
  (∀ a, continues_session a = true → a ≠ SendMessage →
        stage_writes (trace (run (handler a) env s)) = []
        ∧ stage (cells (run (handler a) env s)) = stage s)
  ∧ stage_writes (trace (run resetAnalysis env s)) = [idle]
  ∧ (let w := run sendMessage env s in
     let reply :=
       callAIAgent_settles env (Js.trim (userInput s))
         DISCOVERY_COORDINATOR (uploadedAssetIds s) in
     let writes :=
       Js.truthy (Js.trim (userInput s)) && negb (isLoading s)
       && carries_results reply in
     stage_writes (trace w) = (if writes then [analyzing; complete] else [])
     ∧ stage (cells w) = (if writes then complete else stage s)
     ∧ (call_failed reply = true →
        stage_writes (trace w) = [] ∧ stage (cells w) = stage s)
     ∧ (stage_index (stage s) ≤ stage_index (stage (cells w)))%nat)
  ∧ (let w := run analyzeDocument env s in
     (pdfFile s = None → doiInput s = "" → arxivInput s = "" →
      stage_writes (trace w) = [] ∧ stage (cells w) = stage s)
     ∧ (submittable s →
        (∀ file, pdfFile s = Some file →
                 upload_failed (uploadFiles_settles env file) = true →
                 stage_writes (trace w) = [uploading; idle]
                 ∧ stage (cells w) = idle)
        ∧ (∀ assets, opening_assets s env assets →
             let throws :=
               thrown (callAIAgent_settles env (initialMessage s)
                         DISCOVERY_COORDINATOR assets) in
             stage_writes (trace w)
             = (if throws then [uploading; conversation; idle]
                else [uploading; conversation])
             ∧ stage (cells w) = (if throws then idle else conversation)))
     ∧ ((stage_writes (trace w) = [] ∧ stage (cells w) = stage s)
        ∨ (stage_writes (trace w) = [uploading; conversation]
           ∧ stage (cells w) = conversation)
        ∨ (stage_writes (trace w) = [uploading; idle]
           ∧ stage (cells w) = idle
           ∧ ∃ file, pdfFile s = Some file
                     ∧ upload_failed (uploadFiles_settles env file) = true)
        ∨ (stage_writes (trace w) = [uploading; conversation; idle]
           ∧ stage (cells w) = idle
           ∧ ∃ assets error,
               callAIAgent_settles env (initialMessage s)
                 DISCOVERY_COORDINATOR assets = Js.Rejected error))).
Proof.
  split; [| split; [| split]].
  - intros a Hcont Hsend. by apply other_handlers_leave_stage.
  - apply resetAnalysis_stage_write.
  - cbn zeta.
    destruct (sendMessage_stage_exact s env) as [Hw Hs]. cbn zeta in Hw, Hs.
    split; [done |]. split; [done |]. split.
    + intros Hfailed.
      destruct (sendMessage_stage_writes s env) as [[Hw' Hs'] | (_ & _ & Hok)];
        [done | congruence].
    + destruct (sendMessage_stage_writes s env) as [[_ Hs'] | (_ & Hs' & _)];
        rewrite Hs'; [done |].
      destruct (stage s); cbn; lia.
  - cbn zeta.
    destruct (analyzeDocument_stage_exact s env) as [Hnone Hsome].
    split; [done |]. split; [done |].
    apply analyzeDocument_stage_writes.
Qed.

Lemma stage_writes_of_every_handler_witness :
  let s := Scenario.request_typed in
  let soft := Scenario.upload_succeeds (Js.Resolved Scenario.soft_failure) in
  stage_writes (trace (run (handler (ToggleSection "results")) soft s)) = []
  ∧ stage_writes (trace (run sendMessage soft s)) = []
  ∧ stage (cells (run sendMessage soft s)) = conversation
  ∧ stage_writes
      (trace (run analyzeDocument Scenario.upload_fails Scenario.file_chosen))
    = [uploading; idle]
  ∧ stage_writes
      (trace (run analyzeDocument Scenario.coordinator_rejects
                Scenario.file_chosen))
    = [uploading; conversation; idle].
Proof.
  pose proof (stage_writes_of_every_handler Scenario.request_typed
                (Scenario.upload_succeeds
                   (Js.Resolved Scenario.soft_failure)))
    as (Hother & _ & (_ & _ & Hfailed & _) & _).
  pose proof (stage_writes_of_every_handler Scenario.file_chosen
                Scenario.upload_fails)
    as (_ & _ & _ & _ & Hupload & _).
  pose proof (stage_writes_of_every_handler Scenario.file_chosen
                Scenario.coordinator_rejects)
    as (_ & _ & _ & _ & Hcall & _).
  split; [| split; [| split; [| split]]].
  - apply (Hother (ToggleSection "results")); [reflexivity | discriminate].
  - apply Hfailed. reflexivity.
  - apply Hfailed. reflexivity.
  - assert (submittable Scenario.file_chosen) as Hsub
      by (left; eexists; reflexivity).
    apply (proj1 (Hupload Hsub) Scenario.paper_pdf); reflexivity.
  - assert (submittable Scenario.file_chosen) as Hsub
      by (left; eexists; reflexivity).
    apply (proj1 (proj2 (Hcall Hsub) ["a1"]
                    (ex_intro _ _ (conj eq_refl (conj eq_refl eq_refl))))).
Defined.

(** ** Asset references and the conversation log across turns *)

(** One action that neither starts an analysis nor resets: the stored asset
    references stay, every coordinator call carries them, and the log it
    found is a prefix of the log it leaves. *)
Lemma continuing_action (a : Action) (s : State) (env : Env) :
  continues_session a = true →
  let w := run (handler a) env s in
  uploadedAssetIds (cells w) = uploadedAssetIds s
  ∧ Forall (λ call, call.2 = uploadedAssetIds s) (coordinator_calls (trace w))
  ∧ chatMessages s `prefix_of` chatMessages (cells w).
Proof.
  intros Hcont.
  destruct s as [pf doi arx drag ids msgs inp load stg doc und kts recs qs
                 exp side].
  destruct a; try done; evaluate; branches;
    (split; [done | split; [repeat constructor |]]);
    first [ done | by eexists; rewrite <- ?app_assoc ].
Qed.

Lemma session_cons (env : Env) (a : Action) (rest : list (Env * Action))
    (s : State) :
  session ((env, a) :: rest) s
  = ((session rest (cells (run (handler a) env s))).1,
     trace (run (handler a) env s)
     ++ (session rest (cells (run (handler a) env s))).2).
Proof. cbn. by destruct (session rest _). Qed.

Lemma coordinator_calls_app (t1 t2 : list Effect) :
  coordinator_calls (t1 ++ t2) = coordinator_calls t1 ++ coordinator_calls t2.
Proof. apply omap_app. Qed.

(** A whole session of such actions. *)
Lemma continuing_session (script : list (Env * Action)) (s : State) :
  Forall (λ step, continues_session step.2 = true) script →
  uploadedAssetIds (session script s).1 = uploadedAssetIds s
  ∧ Forall (λ call, call.2 = uploadedAssetIds s)
      (coordinator_calls (session script s).2)
  ∧ chatMessages s `prefix_of` chatMessages (session script s).1.
Proof.
  intros Hall. revert s.
  induction Hall as [| [env a] rest Ha Hrest IH]; intros s.
  - cbn. repeat split; [constructor | done].
  - rewrite session_cons. cbn [fst snd] in *.
    destruct (continuing_action a s env Ha) as (Hids & Hcalls & Hlog).
    destruct (IH (cells (run (handler a) env s))) as (Hids' & Hcalls' & Hlog').
    rewrite Hids in Hids', Hcalls'.
    repeat split.
    + done.
    + rewrite coordinator_calls_app. by apply Forall_app.
    + by etrans.
Qed.

Lemma sendMessage_call (s : State) (env : Env) :
  sendable s →
  coordinator_calls (trace (run sendMessage env s))
  = [ (Js.trim (userInput s), DISCOVERY_COORDINATOR, uploadedAssetIds s) ].
Proof.
  intros [Hinput Hidle].
  destruct s as [pf doi arx drag ids msgs inp load stg doc und kts recs qs
                 exp side].
  cbn in *; subst. evaluate. rewrite Hinput. cbn.
  branches; done.
Qed.

(** C4, as the claim states it, fails: the stored asset references are not
    accumulated.  An upload succeeds with the asset [a1] and the opening
    call is rejected, so the page is back at [idle] with [a1] stored; the
    user starts the analysis again, the upload succeeds with [a2], and the
    opening call and the turn sent after it carry [a2] alone.  Every action
    of the session is taken through a rendered, enabled control. *)
Lemma second_upload_drops_first_assets :
  let retry := Scenario.second_upload_succeeds (Js.Resolved Scenario.asks_back) in
  let script :=
    [ (Scenario.coordinator_rejects, HandleFileChange [Scenario.paper_pdf]);
      (Scenario.coordinator_rejects, AnalyzeDocument);
      (retry, AnalyzeDocument);
      (retry, ChangeUserInput "Focus on methodology");
      (retry, SendMessage) ] in
  playable script initial = true
  ∧ uploadedAssetIds
      (session [ (Scenario.coordinator_rejects,
                  HandleFileChange [Scenario.paper_pdf]);
                 (Scenario.coordinator_rejects, AnalyzeDocument) ]
         initial).1
    = ["a1"]
  ∧ coordinator_calls (session script initial).2
    = [ ("I've uploaded a research paper (PDF: paper.pdf). Please help me analyze it.",
         DISCOVERY_COORDINATOR, ["a1"]);
        ("I've uploaded a research paper (PDF: paper.pdf). Please help me analyze it.",
         DISCOVERY_COORDINATOR, ["a2"]);
        ("Focus on methodology", DISCOVERY_COORDINATOR, ["a2"]) ]
  ∧ uploadedAssetIds (session script initial).1 = ["a2"].
Proof. repeat split; vm_compute; reflexivity. Qed.

(** C4, amended.  The stored asset references are those of the latest
    successful upload.  Once an upload has succeeded in [analyzeDocument],
    its asset ids are stored and the opening call is made with them; and
    however many turns and other actions follow, short of a new analysis or
    a reset, every coordinator call of the session carries exactly those
    asset ids, they are still stored at the end, and a turn sent then, when
    it passes the guard of [sendMessage], makes one coordinator call, which
    carries them. *)
Theorem assets_carried_on_every_turn
    (s : State) (env env' : Env) (file : File) (up : UploadResult)
    (script : list (Env * Action)) :
  pdfFile s = Some file →
  uploadFiles_settles env file = Js.Resolved up →
  upload_success up = true →
  Forall (λ step, continues_session step.2 = true) script →
  let w := run analyzeDocument env s in
  let after := session script (cells w) in
  uploadedAssetIds (cells w) = asset_ids up
  ∧ coordinator_calls (trace w)
    = [ (initialMessage s, DISCOVERY_COORDINATOR, asset_ids up) ]
  ∧ Forall (λ call, call.2 = asset_ids up)
      (coordinator_calls (trace w ++ after.2))
  ∧ uploadedAssetIds after.1 = asset_ids up
  ∧ (sendable after.1 →
     coordinator_calls (trace (run sendMessage env' after.1))
     = [ (Js.trim (userInput after.1), DISCOVERY_COORDINATOR,
          asset_ids up) ]).
Proof.
  intros Hfile Hup Hok Hscript w after.
  assert (uploadedAssetIds (cells w) = asset_ids up
          ∧ coordinator_calls (trace w)
            = [ (initialMessage s, DISCOVERY_COORDINATOR, asset_ids up) ])
    as [Hstored Hfirst].
  { subst w after.
    destruct s as [pf doi arx drag ids msgs inp load stg doc und kts recs qs
                   exp side].
    cbn in Hfile; subst. evaluate. rewrite Hup. cbn. rewrite Hok. cbn.
    branches; done. }
  destruct (continuing_session script (cells w) Hscript)
    as (Hids & Hcalls & _).
  fold after in Hids, Hcalls. rewrite Hstored in Hids, Hcalls.
  split; [done |]. split; [done |]. split; [| split; [done |]].
  - rewrite coordinator_calls_app. apply Forall_app. split; [| done].
    rewrite Hfirst. by repeat constructor.
  - intros Hsend. rewrite (sendMessage_call _ env' Hsend). by rewrite Hids.
Qed.

Lemma assets_carried_on_every_turn_witness :
  let env := Scenario.upload_succeeds (Js.Resolved Scenario.asks_back) in
  let script :=
    [ (env, ChangeUserInput "Focus on methodology"); (env, SendMessage);
      (env, ChangeUserInput "And the limitations?") ] in
  let w := run analyzeDocument env Scenario.file_chosen in
  let after := session script (cells w) in
  uploadedAssetIds (cells w) = ["a1"]
  ∧ coordinator_calls (trace w)
    = [ ("I've uploaded a research paper (PDF: paper.pdf). Please help me analyze it.",
         DISCOVERY_COORDINATOR, ["a1"]) ]
  ∧ Forall (λ call, call.2 = ["a1"]) (coordinator_calls (trace w ++ after.2))
  ∧ uploadedAssetIds after.1 = ["a1"]
  ∧ coordinator_calls (trace (run sendMessage env after.1))
    = [ ("And the limitations?", DISCOVERY_COORDINATOR, ["a1"]) ].
Proof.
  pose proof (assets_carried_on_every_turn Scenario.file_chosen
                (Scenario.upload_succeeds (Js.Resolved Scenario.asks_back))
                (Scenario.upload_succeeds (Js.Resolved Scenario.asks_back))
                Scenario.paper_pdf
                {| upload_success := true; asset_ids := ["a1"];
                   upload_error := None |}
                [ (Scenario.upload_succeeds (Js.Resolved Scenario.asks_back),
                   ChangeUserInput "Focus on methodology");
                  (Scenario.upload_succeeds (Js.Resolved Scenario.asks_back),
                   SendMessage);
                  (Scenario.upload_succeeds (Js.Resolved Scenario.asks_back),
                   ChangeUserInput "And the limitations?") ]
                eq_refl eq_refl eq_refl)
    as Hcarried.
  destruct Hcarried as (Hstored & Hfirst & Hcalls & Hkept & Hturn);
    [repeat constructor |].
  split; [exact Hstored |]. split; [exact Hfirst |].
  split; [exact Hcalls |]. split; [exact Hkept |].
  apply Hturn. split; vm_compute; reflexivity.
Defined.

(** C8, as the claim states it, fails: after a failed upload the log holds
    the failure turn; the next [analyzeDocument], which is not a reset,
    replaces the log, and the failure turn is gone. *)
Lemma new_analysis_replaces_log :
  let s1 := cells (run analyzeDocument Scenario.upload_fails
                     Scenario.file_chosen) in
  let s2 := cells (run analyzeDocument
                     (Scenario.upload_succeeds (Js.Resolved Scenario.asks_back))
                     s1) in
  chatMessages s1
  = [ {| role := assistant;
         content := "Failed to upload PDF: disk full. Please try again.";
         timestamp := Some 0%Z |} ]
  ∧ ¬ chatMessages s1 `prefix_of` chatMessages s2.
Proof.
  split; [reflexivity |].
  intros [rest Hrest]. vm_compute in Hrest. discriminate Hrest.
Qed.

(** C8, amended.  Across every sequence of actions that contains neither a
    new analysis ([analyzeDocument], which starts the log afresh) nor a
    reset, the conversation log is append-only: the log before is a prefix
    of the log after. *)
Theorem log_is_append_only_between_analyses
    (script : list (Env * Action)) (s : State) :
  Forall (λ step, continues_session step.2 = true) script →
  chatMessages s `prefix_of` chatMessages (session script s).1.
Proof. intros Hscript. by apply continuing_session. Qed.

Lemma log_is_append_only_between_analyses_witness :
  let env := Scenario.upload_succeeds (Js.Resolved Scenario.soft_failure) in
  chatMessages Scenario.request_typed
    `prefix_of`
  chatMessages
    (session [ (env, SendMessage); (env, ToggleSection "results");
               (env, ExportSummary) ] Scenario.request_typed).1.
Proof.
  apply (log_is_append_only_between_analyses
           [ (Scenario.upload_succeeds (Js.Resolved Scenario.soft_failure),
              SendMessage);
             (Scenario.upload_succeeds (Js.Resolved Scenario.soft_failure),
              ToggleSection "results");
             (Scenario.upload_succeeds (Js.Resolved Scenario.soft_failure),
              ExportSummary) ]
           Scenario.request_typed).
  repeat constructor.
Defined.

(** ** Export *)

Lemma append_assoc (a b c : string) : (a +:+ b) +:+ c = a +:+ b +:+ c.
Proof.
  induction a as [| x a IH]; [reflexivity |].
  change (String x ((a +:+ b) +:+ c) = String x (a +:+ b +:+ c)).
  by rewrite IH.
Qed.

Lemma first_line_append (a rest : string) :
  Js.single_line a = true → Js.first_line (a +:+ LF +:+ rest) = a.
Proof.
  induction a as [| x a IH]; intros Hline; [reflexivity |].
  cbn in Hline. apply andb_true_iff in Hline as [Hx Ha].
  change (Js.first_line (String x (a +:+ LF +:+ rest)) = String x a).
  cbn. apply negb_true_iff in Hx. rewrite Hx. by rewrite IH.
Qed.

Lemma prefix_refl (a : string) : String.prefix a a = true.
Proof. induction a as [| x a IH]; cbn; [done |]. by destruct (ascii_dec x x). Qed.

Lemma includes_append (a b : string) : Js.includes (a +:+ b) b = true.
Proof.
  induction a as [| x a IH].
  - change (Js.includes b b = true). destruct b; cbn; [done |].
    destruct (ascii_dec _ _); [| done]. by rewrite prefix_refl.
  - change (Js.includes (String x (a +:+ b)) b = true).
    cbn. rewrite IH. apply orb_true_r.
Qed.

(** The text always opens with the heading line: a hash sign, a space, the
    title, and a line feed. *)
Lemma exportContent_heading (doc : DocumentInfo)
    (und : option UnderstandingResult) (kts : list KeyPoint)
    (recs : list Recommendation) :
  ∃ rest,
    exportContent doc und kts recs = "# " +:+ title doc +:+ LF +:+ rest.
Proof.
  unfold exportContent. cbn zeta.
  repeat case_match; rewrite ?append_assoc; eexists; reflexivity.
Qed.

(** C9, as the claim states it, fails: with a held document info whose
    title runs over two lines, the first line of the exported text is the
    heading up to the line break and does not contain the title. *)
Lemma two_line_title_not_on_first_line :
  let s := Scenario.document_info_held Scenario.two_line_title in
  let w := run exportSummary Scenario.upload_fails s in
  let content := "# Deep" +:+ LF +:+ "Nets" +:+ LF +:+ LF in
  downloads (trace w) = [ ("Deep_Nets_summary.md", content) ]
  ∧ Js.first_line content = "# Deep"
  ∧ Js.includes (Js.first_line content) (title Scenario.two_line_title)
    = false.
Proof. repeat split; vm_compute; reflexivity. Qed.

(** C9, amended.  [exportSummary] changes no state.  With no document info
    held it produces nothing.  With a document info held it hands over
    exactly one file, named after the title, whose text opens with a hash
    sign, a space, the title and a line break; when the title holds no line
    break, the first line of the text is that heading and so contains the
    title. *)
Theorem export_opens_with_title (s : State) (env : Env) :
  let w := run exportSummary env s in
  cells w = s
  ∧ match documentInfo s with
    | None => trace w = []
    | Some doc =>
        ∃ content rest,
          trace w = [ Download (exportFilename doc) content ]
          ∧ content = "# " +:+ title doc +:+ LF +:+ rest
          ∧ (Js.single_line (title doc) = true →
             Js.first_line content = "# " +:+ title doc
             ∧ Js.includes (Js.first_line content) (title doc) = true)
    end.
Proof.
  destruct s as [pf doi arx drag ids msgs inp load stg doc und kts recs qs
                 exp side].
  destruct doc as [doc |]; evaluate; [| done].
  split; [done |].
  destruct (exportContent_heading doc und kts recs) as [rest Hrest].
  exists (exportContent doc und kts recs), rest.
  split; [done | split; [done |]].
  intros Hline. rewrite Hrest.
  rewrite <- append_assoc, first_line_append.
  - split; [done | apply includes_append].
  - by change (Js.single_line (title doc) = true).
Qed.

Lemma export_opens_with_title_witness :
  let s := Scenario.document_info_held Scenario.attention in
  let w := run exportSummary Scenario.upload_fails s in
  ∃ content,
    downloads (trace w)
    = [ ("Attention_Is_All_You_Need_summary.md", content) ]
    ∧ Js.first_line content = "# Attention Is All You Need".
Proof.
  pose proof (export_opens_with_title
                (Scenario.document_info_held Scenario.attention)
                Scenario.upload_fails) as [_ Hdoc].
  change (documentInfo (Scenario.document_info_held Scenario.attention))
    with (Some Scenario.attention) in Hdoc.
  destruct Hdoc as (content & rest & Htrace & _ & Hline).
  exists content. cbn zeta. rewrite Htrace.
  split; [reflexivity |]. apply Hline. reflexivity.
Defined.

(** ** Disclosure *)

(** C10.  [toggleSection s] flips the membership of [s] in the set of
    expanded sections and of no other key, changes nothing else, and applied
    twice gives the set back. *)
Theorem toggleSection_flips_one_key
    (section : string) (s : State) (env env' : Env) :
  let s' := cells (run (toggleSection section) env s) in
  let s'' := cells (run (toggleSection section) env' s') in
  (section ∈ expandedSections s' ↔ section ∉ expandedSections s)
  ∧ (∀ key, key ≠ section →
            key ∈ expandedSections s' ↔ key ∈ expandedSections s)
  ∧ s' = apply (SetExpandedSections (expandedSections s')) s
  ∧ expandedSections s'' = expandedSections s
  ∧ s'' = s.
Proof.
  destruct s as [pf doi arx drag ids msgs inp load stg doc und kts recs qs
                 exp side].
  evaluate.
  assert (∀ E : gset string,
            section ∈ E → E ∖ {[ section ]} ∪ {[ section ]} = E) as Hback.
  { intros E Hin. apply set_eq. intros key.
    destruct (decide (key = section)); set_solver. }
  destruct (decide (section ∈ exp)) as [Hin | Hout]; cbn.
  - destruct (decide (section ∈ exp ∖ {[ section ]})) as [Hin' | Hout'];
      [set_solver |].
    cbn. rewrite (Hback exp Hin). repeat split; set_solver.
  - destruct (decide (section ∈ exp ∪ {[ section ]})) as [Hin' | Hout'];
      [| set_solver].
    cbn. assert ((exp ∪ {[ section ]}) ∖ {[ section ]} = exp) as -> by set_solver.
    repeat split; set_solver.
Qed.

Lemma toggleSection_flips_one_key_witness :
  let s := cells (run (toggleSection "methodology") Scenario.upload_fails
                    initial) in
  "methodology" ∈ expandedSections s ∧ "problem" ∈ expandedSections s.
Proof.
  pose proof (toggleSection_flips_one_key "methodology" initial
                Scenario.upload_fails Scenario.upload_fails)
    as (Hflip & Hother & _).
  split.
  - apply Hflip. compute_done.
  - apply (Hother "problem"); [discriminate | compute_done].
Defined.

End PageSpec.

(** * Properties of [src/unnamed/part_000] *)

Module PipelineSpec.

Import Pipeline.

#[local] Set Warnings "-clear-no-such-hyp".
#[local] Arguments String.append : simpl never.
#[local] Arguments Js.trim : simpl never.
#[local] Arguments Js.truthy : simpl never.
#[local] Arguments initialMessage : simpl never.
#[local] Arguments exportContent : simpl never.

Ltac evaluate :=
  unfold run, completion, analyzeForm, sendMessage, exportSummary,
    toggleSection, markStageComplete, callAIAgent, setTimeout, set, fn,
    try_catch, closure, ask, emit, modify, tick, await, return_, throw,
    mbind, mret, handler_bind, handler_ret, bind, ret in *;
  cbn in *.

Ltac branch :=
  match goal with
  | |- context [match ?x with _ => _ end] =>
      lazymatch x with
      | context [match _ with _ => _ end] => fail
      | _ => destruct x eqn:?
      end
  end.

Ltac branches := repeat (branch; cbn in *; simplify_eq).

Ltac in_trace := apply list_elem_of_In; cbn; tauto.

(** ** The loading flag *)

(** C6, at the failing input: the intake holds a DOI, [analyzeForm] sends
    the opening turn, and the coordinator's reply does not report success.
    The loading flag, set before the call, is still set when [analyzeForm]
    has returned. *)
Theorem analyzeForm_soft_failure_keeps_loading :
  let s := PipelineScenario.doi_entered in
  let env := PipelineScenario.answers PipelineScenario.soft_failure in
  let w := run analyzeForm env s in
  completion analyzeForm env s = Normal ()
  ∧ coordinator_calls (trace w)
    = [ ("I've uploaded a paper (DOI: 10.1000/x). Please help me analyze it.",
         DISCOVERY_COORDINATOR) ]
  ∧ (Set_ (SetIsLoading true) ∈ trace w)
  ∧ (Set_ (SetIsLoading false) ∉ trace w)
  ∧ isLoading (cells w) = true.
Proof.
  repeat split; try (vm_compute; reflexivity).
  - apply list_elem_of_In. vm_compute. tauto.
  - intros Hin. apply list_elem_of_In in Hin. vm_compute in Hin.
    repeat destruct Hin as [Hin | Hin]; try discriminate Hin. done.
Qed.

(** The same on every soft failure of the opening turn. *)
Lemma analyzeForm_keeps_loading_on_soft_failure
    (s : State) (env : Env) (r : AgentResult DiscoveryCoordinatorResult) :
  submittable s →
  callAIAgent_settles env (initialMessage s) DISCOVERY_COORDINATOR
  = Js.Resolved r →
  succeeded r = false →
  isLoading (cells (run analyzeForm env s)) = true
  ∧ completion analyzeForm env s = Normal ().
Proof.
  intros Hsub Hreply Hfail.
  destruct s as [pf doi arx drag msgs inp load cur done_ doc und sm recs ql
                 exp side shw].
  unfold submittable in Hsub; cbn in Hsub.
  assert (negb (bool_decide (is_Some pf)) && negb (Js.truthy doi)
          && negb (Js.truthy arx) = false) as Hguard.
  { destruct Hsub as [[f ->] | [H | H]]; [done | |].
    - apply PageSpec.truthy_nonempty in H. rewrite H. by rewrite andb_false_r.
    - apply PageSpec.truthy_nonempty in H. rewrite H. by rewrite andb_false_r. }
  evaluate. rewrite Hguard. cbn. rewrite Hreply. cbn. rewrite Hfail. done.
Qed.

(** On the other two outcomes [analyzeForm] clears the flag. *)
Lemma analyzeForm_clears_loading_otherwise (s : State) (env : Env) :
  submittable s →
  match callAIAgent_settles env (initialMessage s) DISCOVERY_COORDINATOR with
  | Js.Resolved r => succeeded r = true
  | Js.Rejected _ => True
  end →
  isLoading (cells (run analyzeForm env s)) = false.
Proof.
  intros Hsub Hreply.
  destruct s as [pf doi arx drag msgs inp load cur done_ doc und sm recs ql
                 exp side shw].
  unfold submittable in Hsub; cbn in Hsub.
  assert (negb (bool_decide (is_Some pf)) && negb (Js.truthy doi)
          && negb (Js.truthy arx) = false) as Hguard.
  { destruct Hsub as [[f ->] | [H | H]]; [done | |].
    - apply PageSpec.truthy_nonempty in H. rewrite H. by rewrite andb_false_r.
    - apply PageSpec.truthy_nonempty in H. rewrite H. by rewrite andb_false_r. }
  evaluate. rewrite Hguard. cbn.
  destruct (callAIAgent_settles _ _ _) as [r | e]; cbn; [| done].
  by rewrite Hreply.
Qed.

(** [sendMessage] of this file clears the flag on every path past its
    guard. *)
Lemma pipeline_turn_clears_loading (s : State) (env : Env) :
  sendable s →
  let w := run sendMessage env s in
  isLoading (cells w) = false
  ∧ Set_ (SetIsLoading true) ∈ trace w
  ∧ completion sendMessage env s = Normal ().
Proof.
  intros [Hinput Hidle].
  destruct s as [pf doi arx drag msgs inp load cur done_ doc und sm recs ql
                 exp side shw].
  cbn in *; subst. evaluate. rewrite Hinput. cbn.
  branches; (split; [done | split; [in_trace | done]]).
Qed.

(** ** Intake guard *)

Lemma analyzeForm_needs_a_reference (s : State) (env : Env) :
  pdfFile s = None → doiInput s = "" → arxivInput s = "" →
  trace (run analyzeForm env s) = [] ∧ cells (run analyzeForm env s) = s.
Proof.
  intros Hfile Hdoi Harxiv.
  destruct s as [pf doi arx drag msgs inp load cur done_ doc und sm recs ql
                 exp side shw].
  cbn in *; subst. evaluate. done.
Qed.

(** Here too the fields are not trimmed. *)
Lemma analyzeForm_takes_blank_doi :
  let s := PipelineScenario.blank_doi in
  let w := run analyzeForm
             (PipelineScenario.answers PipelineScenario.soft_failure) s in
  Js.trim (doiInput s) = ""
  ∧ coordinator_calls (trace w)
    = [ ("I've uploaded a paper (DOI:  ). Please help me analyze it.",
         DISCOVERY_COORDINATOR) ].
Proof. split; vm_compute; reflexivity. Qed.

(** ** The stage *)

(** The scripted run, once a reply asks for ingestion, visits the stages in
    order and marks each stage it leaves as completed. *)
Lemma scripted_run_goes_forward :
  let env :=
    PipelineScenario.answers
      (PipelineScenario.success_with PipelineScenario.trigger_reply) in
  let s :=
    apply (SetUserInput "Focus on methodology")
      (cells (run analyzeForm env PipelineScenario.doi_entered)) in
  let w := run sendMessage env s in
  let r := fire 5 env (schedule_all 0 (timers (trace w)) []) (cells w) in
  stage_writes (trace w ++ r.2)
  = [ parsing; understanding; summarizing; finding_papers; quality_check;
      complete ]
  ∧ currentStage r.1 = complete
  ∧ stagesCompleted r.1
    = {[ parsing; understanding; summarizing; finding_papers; quality_check ]}.
Proof. repeat split; vm_compute; reflexivity. Qed.

(** A reply asking for ingestion sets the current stage to [parsing]
    whatever it was; at [complete] this is a step backward, and this page has
    no reset. *)
Lemma retrigger_sets_stage_backward (s : State) (env : Env)
    (r : AgentResult DiscoveryCoordinatorResult) :
  sendable s →
  callAIAgent_settles env (userInput s) DISCOVERY_COORDINATOR = Js.Resolved r →
  succeeded r = true →
  next_action (result (response r)) = "trigger_ingestion" →
  currentStage (cells (run sendMessage env s)) = parsing.
Proof.
  intros [Hinput Hidle] Hreply Hok Hnext.
  destruct s as [pf doi arx drag msgs inp load cur done_ doc und sm recs ql
                 exp side shw].
  cbn in *; subst. evaluate. rewrite Hinput. cbn. rewrite Hreply. cbn.
  rewrite Hok. cbn. rewrite Hnext. done.
Qed.

(** ** The conversation log *)

Lemma sendMessage_extends_log (s : State) (env : Env) :
  chatMessages s `prefix_of` chatMessages (cells (run sendMessage env s)).
Proof.
  destruct s as [pf doi arx drag msgs inp load cur done_ doc und sm recs ql
                 exp side shw].
  evaluate. branches;
    first [ done | by eexists; rewrite <- ?app_assoc ].
Qed.

(** ** Export *)

(** The export of this page is keyed on the summary, not on the document
    info, and its first line is a fixed heading. *)
Lemma export_is_keyed_on_summary (s : State) (env : Env) :
  let w := run exportSummary env s in
  cells w = s
  ∧ match summaryResult s with
    | None => trace w = []
    | Some sm =>
        trace w = [ Download "summary.md" (exportContent sm) ]
        ∧ Js.first_line (exportContent sm) = "# Research Paper Summary"
    end.
Proof.
  destruct s as [pf doi arx drag msgs inp load cur done_ doc und sm recs ql
                 exp side shw].
  destruct sm as [sm |]; evaluate; [| done].
  split; [done | split; [done |]].
  unfold exportContent.
  by rewrite (PageSpec.first_line_append "# Research Paper Summary").
Qed.

(** ** Disclosure *)

(** [toggleSection] is the same function here. *)
Lemma pipeline_toggle_is_involutive
    (section : string) (s : State) (env env' : Env) :
  let s' := cells (run (toggleSection section) env s) in
  let s'' := cells (run (toggleSection section) env' s') in
  (section ∈ expandedSections s' ↔ section ∉ expandedSections s)
  ∧ (∀ key, key ≠ section →
            key ∈ expandedSections s' ↔ key ∈ expandedSections s)
  ∧ s'' = s.
Proof.
  destruct s as [pf doi arx drag msgs inp load cur done_ doc und sm recs ql
                 exp side shw].
  evaluate.
  assert (∀ E : gset string,
            section ∈ E → E ∖ {[ section ]} ∪ {[ section ]} = E) as Hback.
  { intros E Hin. apply set_eq. intros key.
    destruct (decide (key = section)); set_solver. }
  destruct (decide (section ∈ exp)) as [Hin | Hout]; cbn.
  - destruct (decide (section ∈ exp ∖ {[ section ]})) as [Hin' | Hout'];
      [set_solver |].
    cbn. rewrite (Hback exp Hin). repeat split; set_solver.
  - destruct (decide (section ∈ exp ∪ {[ section ]})) as [Hin' | Hout'];
      [| set_solver].
    cbn. assert ((exp ∪ {[ section ]}) ∖ {[ section ]} = exp) as -> by set_solver.
    repeat split; set_solver.
Qed.

End PipelineSpec.

(** * Facts on the string operations *)

Module JsFacts.

Lemma prefix_empty (s : string) : String.prefix "" s = true.
Proof. by destruct s. Qed.

Lemma prefix_append (n a b : string) :
  String.prefix n a = true → String.prefix n (a +:+ b) = true.
Proof.
  revert a. induction n as [| x n IH]; intros a Hp; [apply prefix_empty |].
  destruct a as [| y a]; [done |].
  change (String.prefix (String x n) (String y (a +:+ b)) = true).
  cbn in *. destruct (ascii_dec x y); [by apply IH | done].
Qed.

Lemma prefix_of_append (n b : string) : String.prefix n (n +:+ b) = true.
Proof. apply prefix_append, PageSpec.prefix_refl. Qed.

Lemma replace_first_at_start (pattern replacement s : string) :
  String.prefix pattern s = true →
  Js.replace_first pattern replacement s
  = replacement +:+ Js.drop (String.length pattern) s.
Proof.
  intros Hp.
  assert (Js.replace_first pattern replacement s
          = if String.prefix pattern s
            then replacement +:+ Js.drop (String.length pattern) s
            else match s with
                 | EmptyString => EmptyString
                 | String x s' =>
                     String x (Js.replace_first pattern replacement s')
                 end) as -> by (by destruct s).
  by rewrite Hp.
Qed.

Lemma includes_empty (s : string) : Js.includes s "" = true.
Proof. destruct s; cbn; [done |]. done. Qed.

Lemma includes_refl (s : string) : Js.includes s s = true.
Proof.
  destruct s as [| x s]; [done |].
  cbn. destruct (ascii_dec x x); [| done].
  by rewrite PageSpec.prefix_refl.
Qed.

Lemma includes_append_l (a b n : string) :
  Js.includes a n = true → Js.includes (a +:+ b) n = true.
Proof.
  induction a as [| x a IH]; intros Hin.
  - destruct n as [| y n]; [apply includes_empty | done].
  - change (Js.includes (String x (a +:+ b)) n = true).
    change (String.prefix n (String x a) || Js.includes a n = true) in Hin.
    change (String.prefix n (String x (a +:+ b)) || Js.includes (a +:+ b) n
            = true).
    apply orb_true_iff in Hin as [Hp | Hin].
    + apply orb_true_iff. left.
      by apply (prefix_append n (String x a) b).
    + apply orb_true_iff. right. by apply IH.
Qed.

Lemma includes_append_r (a b n : string) :
  Js.includes b n = true → Js.includes (a +:+ b) n = true.
Proof.
  intros Hin. induction a as [| x a IH]; [done |].
  change (String.prefix n (String x (a +:+ b)) || Js.includes (a +:+ b) n
          = true).
  rewrite IH. apply orb_true_r.
Qed.

Lemma includes_join (sep x e : string) (xs : list string) :
  e ∈ xs → Js.includes e x = true →
  Js.includes (Js.join sep xs) x = true.
Proof.
  intros Hin Hx. induction xs as [| y [| z rest] IH].
  - by apply elem_of_nil in Hin.
  - by apply list_elem_of_singleton in Hin as ->.
  - change (Js.includes (y +:+ sep +:+ Js.join sep (z :: rest)) x = true).
    apply elem_of_cons in Hin as [-> | Hin].
    + by apply includes_append_l.
    + apply includes_append_r, includes_append_r. by apply IH.
Qed.

Lemma elem_of_mapi_from {A B : Type} (f : A → nat → B) (xs : list A)
    (x : A) (i : nat) :
  x ∈ xs → ∃ j, f x j ∈ Js.mapi_from i f xs.
Proof.
  revert i. induction xs as [| y xs IH]; intros i Hin.
  - by apply elem_of_nil in Hin.
  - apply elem_of_cons in Hin as [-> | Hin].
    + exists i. cbn. apply elem_of_cons. by left.
    + destruct (IH (S i) Hin) as [j Hj]. exists j. cbn.
      apply elem_of_cons. by right.
Qed.

Lemma split_free (c : ascii) (s : string) :
  Js.free_of c s = true → Js.split c s = [s].
Proof.
  induction s as [| x s IH]; intros Hfree; [done |].
  cbn in *. apply andb_true_iff in Hfree as [Hx Hs].
  apply negb_true_iff in Hx. rewrite Hx. by rewrite (IH Hs).
Qed.

Lemma split_at_first (c : ascii) (a b : string) :
  Js.free_of c a = true →
  Js.split c (a +:+ String c b) = a :: Js.split c b.
Proof.
  induction a as [| x a IH]; intros Hfree.
  - change (Js.split c (String c b) = "" :: Js.split c b).
    cbn. by rewrite Ascii.eqb_refl.
  - change (Js.split c (String x (a +:+ String c b))
            = String x a :: Js.split c b).
    cbn in *. apply andb_true_iff in Hfree as [Hx Ha].
    apply negb_true_iff in Hx. rewrite Hx. by rewrite (IH Ha).
Qed.

Lemma replace_first_absent (pattern replacement s : string) :
  Js.includes s pattern = false →
  Js.replace_first pattern replacement s = s.
Proof.
  induction s as [| x s IH]; intros Habsent.
  - cbn in *. apply orb_false_iff in Habsent as [Hp _]. by rewrite Hp.
  - change (String.prefix pattern (String x s) || Js.includes s pattern
            = false) in Habsent.
    apply orb_false_iff in Habsent as [Hp Hs].
    change ((if String.prefix pattern (String x s)
             then replacement
                  +:+ Js.drop (String.length pattern) (String x s)
             else String x (Js.replace_first pattern replacement s))
            = String x s).
    rewrite Hp. by rewrite (IH Hs).
Qed.

Lemma replace_non_alnum_chars (s : string) :
  Forall (λ c, Js.is_alnum c = true ∨ c = "_"%char)
    (list_ascii_of_string (Js.replace_non_alnum s))
  ∧ String.length (Js.replace_non_alnum s) = String.length s.
Proof.
  induction s as [| x s [IHc IHl]]; [by split; [constructor |] |].
  cbn. split.
  - constructor; [| done].
    destruct (Js.is_alnum x) eqn:Hx; [by left | by right].
  - by rewrite IHl.
Qed.

Lemma replace_non_alnum_get (s : string) (i : nat) (c : ascii) :
  String.get i s = Some c →
  String.get i (Js.replace_non_alnum s)
  = Some (if Js.is_alnum c then c else "_"%char).
Proof.
  revert i. induction s as [| x s IH]; intros i Hget; [done |].
  destruct i as [| i]; cbn in *.
  - by simplify_eq.
  - by apply IH.
Qed.

Lemma replace_non_alnum_plain (s : string) :
  Forall (λ c, Js.is_alnum c = true) (list_ascii_of_string s) →
  Js.replace_non_alnum s = s.
Proof.
  induction s as [| x s IH]; intros Hall; [done |].
  cbn in *. apply Forall_cons in Hall as [Hx Hs].
  rewrite Hx. by rewrite (IH Hs).
Qed.

End JsFacts.

(** * Further properties of [src/app/page.tsx] *)

Module PageMore.

Import Page.
Import PageSpec.

#[local] Set Warnings "-clear-no-such-hyp".
#[local] Arguments String.append : simpl never.
#[local] Arguments Js.trim : simpl never.
#[local] Arguments Js.truthy : simpl never.
#[local] Arguments Js.or_else : simpl never.
#[local] Arguments initialMessage : simpl never.
#[local] Arguments exportContent : simpl never.
#[local] Arguments exportFilename : simpl never.

(** ** A conversation turn *)

(** X1.  When the input is blank after trimming, or a call is pending,
    [sendMessage] does nothing: no effect is issued, no call is made and the
    state is as it was. *)
Theorem sendMessage_rejects_blank_or_pending (s : State) (env : Env) :
  Js.truthy (Js.trim (userInput s)) = false ∨ isLoading s = true →
  run sendMessage env s = {| cells := s; trace := []; ticks := 0 |}
  ∧ completion sendMessage env s = Normal ().
Proof.
  intros Hguard.
  destruct s as [pf doi arx drag ids msgs inp load stg doc und kts recs qs
                 exp side].
  cbn in Hguard. evaluate.
  destruct Hguard as [-> | ->]; [done |].
  by destruct (Js.truthy _).
Qed.

Lemma sendMessage_rejects_blank_or_pending_witness :
  run sendMessage Scenario.upload_fails Scenario.blanks_typed
  = {| cells := Scenario.blanks_typed; trace := []; ticks := 0 |}
  ∧ completion sendMessage Scenario.upload_fails Scenario.blanks_typed
    = Normal ().
Proof.
  apply (sendMessage_rejects_blank_or_pending Scenario.blanks_typed
           Scenario.upload_fails).
  left. vm_compute. reflexivity.
Defined.

(** X2.  When the coordinator call is rejected, [sendMessage] logs the
    rejection to the console, appends the user turn and the fixed assistant
    turn "An error occurred. Please try again.", clears the loading flag, and
    leaves the stage, the held results and the stored asset references as
    they were. *)
Theorem sendMessage_hard_failure
    (s : State) (env : Env) (reason : string) :
  sendable s →
  callAIAgent_settles env (Js.trim (userInput s)) DISCOVERY_COORDINATOR
    (uploadedAssetIds s) = Js.Rejected reason →
  let w := run sendMessage env s in
  console_errors (trace w) = [reason]
  ∧ chatMessages (cells w)
    = chatMessages s
      ++ [ {| role := user; content := Js.trim (userInput s);
              timestamp := Some (clock env 0) |};
           {| role := assistant;
              content := "An error occurred. Please try again.";
              timestamp := Some (clock env 1) |} ]
  ∧ isLoading (cells w) = false
  ∧ stage_writes (trace w) = []
  ∧ stage (cells w) = stage s
  ∧ held_results (cells w) = held_results s
  ∧ uploadedAssetIds (cells w) = uploadedAssetIds s.
Proof.
  intros [Hinput Hidle] Hreply.
  destruct s as [pf doi arx drag ids msgs inp load stg doc und kts recs qs
                 exp side].
  cbn in *; subst. evaluate. rewrite Hinput. cbn. rewrite Hreply. cbn.
  by rewrite <- app_assoc.
Qed.

Lemma sendMessage_hard_failure_witness :
  let s := Scenario.request_typed in
  let w := run sendMessage Scenario.coordinator_rejects s in
  console_errors (trace w) = ["network down"]
  ∧ chatMessages (cells w)
    = chatMessages s
      ++ [ {| role := user; content := "Focus on methodology";
              timestamp := Some 0%Z |};
           {| role := assistant;
              content := "An error occurred. Please try again.";
              timestamp := Some 1%Z |} ]
  ∧ isLoading (cells w) = false
  ∧ stage_writes (trace w) = []
  ∧ stage (cells w) = conversation
  ∧ held_results (cells w) = held_results s
  ∧ uploadedAssetIds (cells w) = ["a1"].
Proof.
  apply (sendMessage_hard_failure Scenario.request_typed
           Scenario.coordinator_rejects "network down");
    [split; vm_compute; reflexivity | vm_compute; reflexivity].
Defined.

(** X3.  Whatever the coordinator call does (reply with or without
    results, soft failure, rejection), a [sendMessage] that passes its guard
    makes exactly one coordinator call, to the discovery coordinator, with the
    trimmed input as message and the stored asset references; and the log
    begins with the old log followed by a user turn holding that same message
    and by an assistant turn. *)
Theorem sendMessage_one_call_two_turns (s : State) (env : Env) :
  sendable s →
  let w := run sendMessage env s in
  coordinator_calls (trace w)
  = [ (Js.trim (userInput s), DISCOVERY_COORDINATOR, uploadedAssetIds s) ]
  ∧ ∃ reply,
      chatMessages (cells w)
      = chatMessages s
        ++ [ {| role := user; content := Js.trim (userInput s);
                timestamp := Some (clock env 0) |};
             {| role := assistant; content := reply;
                timestamp := Some (clock env 1) |} ].
Proof.
  intros [Hinput Hidle].
  destruct s as [pf doi arx drag ids msgs inp load stg doc und kts recs qs
                 exp side].
  cbn in *; subst. evaluate. rewrite Hinput. cbn.
  branches; (split; [done |]); eexists; by rewrite <- app_assoc.
Qed.

Lemma sendMessage_one_call_two_turns_witness :
  let s := Scenario.request_typed in
  let w := run sendMessage
             (Scenario.upload_succeeds (Js.Resolved Scenario.soft_failure))
             s in
  coordinator_calls (trace w)
  = [ ("Focus on methodology", DISCOVERY_COORDINATOR, ["a1"]) ]
  ∧ ∃ reply,
      chatMessages (cells w)
      = chatMessages s
        ++ [ {| role := user; content := "Focus on methodology";
                timestamp := Some 0%Z |};
             {| role := assistant; content := reply;
                timestamp := Some 1%Z |} ].
Proof.
  apply (sendMessage_one_call_two_turns Scenario.request_typed
           (Scenario.upload_succeeds (Js.Resolved Scenario.soft_failure))).
  split; vm_compute; reflexivity.
Defined.

(** ** Starting an analysis *)

Lemma submittable_guard (s : State) :
  submittable s →
  negb (bool_decide (is_Some (pdfFile s))) && negb (Js.truthy (doiInput s))
  && negb (Js.truthy (arxivInput s)) = false.
Proof.
  intros [[f Hf] | [H | H]].
  - by rewrite Hf.
  - apply truthy_nonempty in H. rewrite H. by rewrite andb_false_r.
  - apply truthy_nonempty in H. rewrite H. by rewrite andb_false_r.
Qed.

(** X4.  An [analyzeDocument] that passes its guard uploads the held file,
    once, and uploads nothing when no file is held; without a file the
    opening call is still made and carries no asset reference. *)
Theorem analyzeDocument_uploads_held_file_once (s : State) (env : Env) :
  submittable s →
  let w := run analyzeDocument env s in
  upload_calls (trace w)
  = match pdfFile s with Some file => [file] | None => [] end
  ∧ (pdfFile s = None →
     coordinator_calls (trace w)
     = [ (initialMessage s, DISCOVERY_COORDINATOR, []) ]).
Proof.
  intros Hsub. pose proof (submittable_guard s Hsub) as Hguard.
  destruct s as [pf doi arx drag ids msgs inp load stg doc und kts recs qs
                 exp side].
  cbn in Hguard. evaluate. rewrite Hguard. cbn.
  branches; done.
Qed.

Lemma analyzeDocument_uploads_held_file_once_witness :
  let w := run analyzeDocument Scenario.upload_fails Scenario.doi_entered in
  upload_calls (trace w) = []
  ∧ coordinator_calls (trace w)
    = [ ("I've uploaded a research paper (DOI: 10.1000/x). Please help me analyze it.",
         DISCOVERY_COORDINATOR, []) ].
Proof.
  pose proof (analyzeDocument_uploads_held_file_once Scenario.doi_entered
                Scenario.upload_fails) as H.
  destruct H as [Hup Hcall].
  - right. left. vm_compute. discriminate.
  - split; [exact Hup | apply Hcall; vm_compute; reflexivity].
Defined.

(** X5.  When the upload, if any, has succeeded and the coordinator
    replies to the opening turn, successfully or not, [analyzeDocument] ends
    at stage [conversation] with the loading flag cleared, and the log is
    exactly the synthesized opening message, which is the message sent,
    followed by one assistant turn: the reply's message, a placeholder
    question when it has none, or a fixed apology when the reply does not
    report success.  A payload of results in this reply is not read. *)
Theorem analyzeDocument_opening_turn
    (s : State) (env : Env) (assets : list string)
    (r : AgentResult Payload) :
  submittable s →
  opening_assets s env assets →
  callAIAgent_settles env (initialMessage s) DISCOVERY_COORDINATOR assets
  = Js.Resolved r →
  let w := run analyzeDocument env s in
  stage (cells w) = conversation
  ∧ isLoading (cells w) = false
  ∧ coordinator_calls (trace w)
    = [ (initialMessage s, DISCOVERY_COORDINATOR, assets) ]
  ∧ (∃ t t',
       chatMessages (cells w)
       = [ {| role := user; content := initialMessage s;
              timestamp := Some t |};
           {| role := assistant; content := opening_reply_text r;
              timestamp := Some t' |} ])
  ∧ held_results (cells w) = held_results s.
Proof.
  intros Hsub Hassets Hreply.
  pose proof (submittable_guard s Hsub) as Hguard.
  destruct s as [pf doi arx drag ids msgs inp load stg doc und kts recs qs
                 exp side].
  unfold opening_assets, opening_reply_text in *.
  cbn in Hguard, Hassets. evaluate. rewrite Hguard. cbn.
  destruct pf as [file |].
  - destruct Hassets as (up & Hup & Hok & <-).
    cbn. rewrite Hup. cbn. rewrite Hok. cbn. rewrite Hreply. cbn.
    destruct (succeeded r); cbn; repeat split; eauto.
  - subst assets. cbn. rewrite Hreply. cbn.
    destruct (succeeded r); cbn; repeat split; eauto.
Qed.

Lemma analyzeDocument_opening_turn_witness :
  let w := run analyzeDocument
             (Scenario.upload_succeeds (Js.Resolved Scenario.soft_failure))
             Scenario.file_chosen in
  stage (cells w) = conversation
  ∧ isLoading (cells w) = false
  ∧ coordinator_calls (trace w)
    = [ ("I've uploaded a research paper (PDF: paper.pdf). Please help me analyze it.",
         DISCOVERY_COORDINATOR, ["a1"]) ]
  ∧ (∃ t t',
       chatMessages (cells w)
       = [ {| role := user;
              content :=
                "I've uploaded a research paper (PDF: paper.pdf). Please help me analyze it.";
              timestamp := Some t |};
           {| role := assistant;
              content :=
                "I encountered an issue starting the analysis. Please try again.";
              timestamp := Some t' |} ])
  ∧ held_results (cells w) = held_results Scenario.file_chosen.
Proof.
  apply (analyzeDocument_opening_turn Scenario.file_chosen
           (Scenario.upload_succeeds (Js.Resolved Scenario.soft_failure))
           ["a1"] Scenario.soft_failure).
  - left. vm_compute. eauto.
  - exists {| upload_success := true; asset_ids := ["a1"];
              upload_error := None |}.
    repeat split; vm_compute; reflexivity.
  - vm_compute. reflexivity.
Defined.

(** X6.  When the coordinator call of the opening turn is rejected,
    [analyzeDocument] logs the rejection to the console and ends at stage
    [idle] with the loading flag cleared; the log is exactly one assistant
    turn, "An error occurred during upload. Please try again.", the opening
    user turn being dropped from it; and the asset references of an upload
    that had succeeded stay stored. *)
Theorem analyzeDocument_opening_turn_rejected
    (s : State) (env : Env) (assets : list string) (reason : string) :
  submittable s →
  opening_assets s env assets →
  callAIAgent_settles env (initialMessage s) DISCOVERY_COORDINATOR assets
  = Js.Rejected reason →
  let w := run analyzeDocument env s in
  stage (cells w) = idle
  ∧ isLoading (cells w) = false
  ∧ console_errors (trace w) = [reason]
  ∧ (∃ t,
       chatMessages (cells w)
       = [ {| role := assistant;
              content := "An error occurred during upload. Please try again.";
              timestamp := Some t |} ])
  ∧ uploadedAssetIds (cells w)
    = (if bool_decide (is_Some (pdfFile s)) then assets
       else uploadedAssetIds s).
Proof.
  intros Hsub Hassets Hreply.
  pose proof (submittable_guard s Hsub) as Hguard.
  destruct s as [pf doi arx drag ids msgs inp load stg doc und kts recs qs
                 exp side].
  unfold opening_assets in *.
  cbn in Hguard, Hassets. evaluate. rewrite Hguard. cbn.
  destruct pf as [file |].
  - destruct Hassets as (up & Hup & Hok & <-).
    cbn. rewrite Hup. cbn. rewrite Hok. cbn. rewrite Hreply. cbn.
    repeat split; eauto.
  - subst assets. cbn. rewrite Hreply. cbn. repeat split; eauto.
Qed.

Lemma analyzeDocument_opening_turn_rejected_witness :
  let w := run analyzeDocument Scenario.coordinator_rejects
             Scenario.file_chosen in
  stage (cells w) = idle
  ∧ isLoading (cells w) = false
  ∧ console_errors (trace w) = ["network down"]
  ∧ (∃ t,
       chatMessages (cells w)
       = [ {| role := assistant;
              content := "An error occurred during upload. Please try again.";
              timestamp := Some t |} ])
  ∧ uploadedAssetIds (cells w) = ["a1"].
Proof.
  apply (analyzeDocument_opening_turn_rejected Scenario.file_chosen
           Scenario.coordinator_rejects ["a1"] "network down").
  - left. vm_compute. eauto.
  - exists {| upload_success := true; asset_ids := ["a1"];
              upload_error := None |}.
    repeat split; vm_compute; reflexivity.
  - vm_compute. reflexivity.
Defined.

(** X7.  When the upload call itself is rejected, [analyzeDocument] makes
    no coordinator call, stores no asset reference, logs the rejection to the
    console and ends at stage [idle] with the loading flag cleared and a log
    of exactly one assistant turn. *)
Theorem analyzeDocument_upload_rejected
    (s : State) (env : Env) (file : File) (reason : string) :
  pdfFile s = Some file →
  uploadFiles_settles env file = Js.Rejected reason →
  let w := run analyzeDocument env s in
  stage (cells w) = idle
  ∧ isLoading (cells w) = false
  ∧ console_errors (trace w) = [reason]
  ∧ coordinator_calls (trace w) = []
  ∧ uploadedAssetIds (cells w) = uploadedAssetIds s
  ∧ chatMessages (cells w)
    = [ {| role := assistant;
           content := "An error occurred during upload. Please try again.";
           timestamp := Some (clock env 0) |} ].
Proof.
  intros Hfile Hup.
  destruct s as [pf doi arx drag ids msgs inp load stg doc und kts recs qs
                 exp side].
  cbn in Hfile; subst. evaluate. rewrite Hup. cbn. done.
Qed.

Lemma analyzeDocument_upload_rejected_witness :
  let w := run analyzeDocument Scenario.upload_rejects Scenario.file_chosen in
  stage (cells w) = idle
  ∧ isLoading (cells w) = false
  ∧ console_errors (trace w) = ["network down"]
  ∧ coordinator_calls (trace w) = []
  ∧ uploadedAssetIds (cells w) = []
  ∧ chatMessages (cells w)
    = [ {| role := assistant;
           content := "An error occurred during upload. Please try again.";
           timestamp := Some 0%Z |} ].
Proof.
  apply (analyzeDocument_upload_rejected Scenario.file_chosen
           Scenario.upload_rejects Scenario.paper_pdf "network down");
    vm_compute; reflexivity.
Defined.

(** ** Reset and intake *)

(** X8.  [resetAnalysis] puts every cell back to its value of the first
    render, except the drag highlight, the loading flag and the sidebar
    switch, which it leaves as they are: a call that is pending at the reset
    stays pending.  It makes no remote call. *)
Theorem resetAnalysis_restores_first_render (s : State) (env : Env) :
  let w := run resetAnalysis env s in
  cells w
  = apply (SetSidebarOpen (sidebarOpen s))
      (apply (SetIsLoading (isLoading s))
         (apply (SetDragActive (dragActive s)) initial))
  ∧ coordinator_calls (trace w) = []
  ∧ upload_calls (trace w) = []
  ∧ cells (run resetAnalysis env (cells w)) = cells w.
Proof.
  destruct s as [pf doi arx drag ids msgs inp load stg doc und kts recs qs
                 exp side].
  repeat split; reflexivity.
Qed.

(** X9.  A drop takes the first dropped file, and only if its type is
    [application/pdf]: any other drop, or an empty one, leaves the held file
    as it was; every drop ends the drag highlight.  The file picker takes the
    first chosen file whatever its type, and an empty choice changes
    nothing.  Neither touches any other cell. *)
Theorem intake_takes_first_file
    (files : list File) (s : State) (env : Env) :
  cells (run (handleDrop files) env s)
  = apply (SetDragActive false)
      (match files with
       | file :: _ =>
           if String.eqb (file_type file) "application/pdf"
           then apply (SetPdfFile (Some file)) s
           else s
       | [] => s
       end)
  ∧ cells (run (handleFileChange files) env s)
    = match files with
      | file :: _ => apply (SetPdfFile (Some file)) s
      | [] => s
      end.
Proof.
  destruct s as [pf doi arx drag ids msgs inp load stg doc und kts recs qs
                 exp side].
  destruct files as [| file rest]; evaluate; [done |].
  by destruct (String.eqb _ _).
Qed.

(** ** What holds between any two handlers *)

(** A property kept by every action holds along every session. *)
Lemma session_keeps (P : State → Prop) :
  (∀ a env s, P s → P (cells (run (handler a) env s))) →
  ∀ script s, P s → P (session script s).1.
Proof.
  intros Hstep script. induction script as [| [env a] rest IH]; intros s Hs.
  - done.
  - rewrite session_cons. cbn [fst]. apply IH. by apply Hstep.
Qed.

(** A property kept by every action that can be taken holds along every
    session that can be played. *)
Lemma playable_session_keeps (P : State → Prop) :
  (∀ a env s, available a s = true → P s →
              P (cells (run (handler a) env s))) →
  ∀ script s, playable script s = true → P s → P (session script s).1.
Proof.
  intros Hstep script. induction script as [| [env a] rest IH]; intros s Hp Hs.
  - done.
  - rewrite session_cons. cbn [fst]. cbn in Hp.
    apply andb_true_iff in Hp as [Ha Hrest].
    apply IH; [done |]. by apply Hstep.
Qed.

Lemma resetAnalysis_cells (s : State) (env : Env) :
  let s' := cells (run resetAnalysis env s) in
  stage s' = idle ∧ isLoading s' = isLoading s ∧ chatMessages s' = []
  ∧ held_results s' = held_results initial.
Proof.
  destruct s as [pf doi arx drag ids msgs inp load stg doc und kts recs qs
                 exp side].
  repeat split; reflexivity.
Qed.

Lemma action_keeps_rest (a : Action) (env : Env) (s : State) :
  at_rest s → at_rest (cells (run (handler a) env s)).
Proof.
  intros [Hload Hstage].
  destruct a.
  9: { destruct (resetAnalysis_cells s env) as (Hs & Hl & _).
       unfold at_rest. cbn [handler]. split; [by rewrite Hl | by left]. }
  all: destruct s as [pf doi arx drag ids msgs inp load stg doc und kts recs
                      qs exp side];
    cbn in Hload, Hstage; subst load; unfold at_rest;
    evaluate; branches; split; auto.
Qed.

(** X10.  Between two handlers the page is at rest: starting from a state
    at rest, such as the first render, after any sequence of actions
    whatever the remote calls do, no call is left pending (the loading flag
    is down) and the stage is [idle], [conversation] or [complete];
    [uploading] and [analyzing] are only passed through inside a handler. *)
Theorem sessions_end_at_rest (script : list (Env * Action)) (s : State) :
  at_rest s → at_rest (session script s).1.
Proof. apply (session_keeps at_rest). intros a env. apply action_keeps_rest. Qed.

Lemma sessions_end_at_rest_witness :
  at_rest
    (session
       [ (Scenario.upload_fails, HandleFileChange [Scenario.paper_pdf]);
         (Scenario.upload_fails, AnalyzeDocument);
         (Scenario.coordinator_rejects, AnalyzeDocument);
         (Scenario.upload_succeeds (Js.Resolved Scenario.asks_back),
          AnalyzeDocument);
         (Scenario.upload_fails, ChangeUserInput "Focus on methodology");
         (Scenario.upload_succeeds
            (Js.Resolved (Scenario.reply_with Scenario.only_document_info)),
          SendMessage) ]
       initial).1.
Proof.
  apply (sessions_end_at_rest _ initial). split; [reflexivity | by left].
Defined.

Lemma answered_cons (m : ChatMessage) (rest : list ChatMessage) :
  answered (m :: rest)
  = match role m, rest with
    | assistant, _ => answered rest
    | user, next :: _ =>
        match role next with
        | assistant => answered rest
        | user => false
        end
    | user, [] => false
    end.
Proof. reflexivity. Qed.

Lemma answered_extended (log : list ChatMessage) (u a : ChatMessage) :
  role u = user → role a = assistant →
  answered log = true → answered (log ++ [u; a]) = true.
Proof.
  intros Hu Ha. induction log as [| m rest IH]; intros Hlog.
  - cbn. by rewrite Hu, Ha.
  - rewrite answered_cons in Hlog.
    rewrite <- app_comm_cons, answered_cons.
    destruct (role m).
    + destruct rest as [| next rest']; [done |].
      rewrite <- app_comm_cons.
      destruct (role next); [done |]. rewrite app_comm_cons. by apply IH.
    + by apply IH.
Qed.

Lemma action_keeps_answered (a : Action) (env : Env) (s : State) :
  answered (chatMessages s) = true →
  answered (chatMessages (cells (run (handler a) env s))) = true.
Proof.
  intros Hlog.
  destruct a.
  9: { destruct (resetAnalysis_cells s env) as (_ & _ & Hempty & _).
       cbn [handler]. by rewrite Hempty. }
  all: destruct s as [pf doi arx drag ids msgs inp load stg doc und kts recs
                      qs exp side];
    cbn in Hlog; evaluate; branches;
    rewrite <- ?app_assoc; cbn;
    first [ done | by apply answered_extended ].
Qed.

(** X11.  No user turn is left without an answer: starting from a log in
    which every user turn is directly followed by an assistant turn, such as
    the empty log, after any sequence of actions whatever the remote calls
    do (replies, soft failures, rejections), every user turn of the log is
    directly followed by an assistant turn. *)
Theorem every_user_turn_is_answered
    (script : list (Env * Action)) (s : State) :
  answered (chatMessages s) = true →
  answered (chatMessages (session script s).1) = true.
Proof.
  apply (session_keeps (λ s, answered (chatMessages s) = true)).
  intros a env. apply action_keeps_answered.
Qed.

Lemma every_user_turn_is_answered_witness :
  answered
    (chatMessages
       (session
          [ (Scenario.upload_fails, ChangeUserInput "Focus on methodology");
            (Scenario.coordinator_rejects, SendMessage);
            (Scenario.upload_fails, ChangeUserInput "Again");
            (Scenario.upload_succeeds (Js.Resolved Scenario.soft_failure),
             SendMessage) ]
          Scenario.in_conversation).1)
  = true.
Proof.
  apply (every_user_turn_is_answered _ Scenario.in_conversation).
  vm_compute. reflexivity.
Defined.

Lemma available_action_keeps_results (a : Action) (env : Env) (s : State) :
  available a s = true →
  results_only_when_complete s →
  results_only_when_complete (cells (run (handler a) env s)).
Proof.
  intros Havail Hres.
  destruct a.
  9: { destruct (resetAnalysis_cells s env) as (_ & _ & _ & Hheld).
       unfold results_only_when_complete. cbn [handler]. by intros _. }
  all: destruct s as [pf doi arx drag ids msgs inp load stg doc und kts recs
                      qs exp side];
    unfold results_only_when_complete, available, upload_zone_rendered,
      panels_rendered, analysis_card_rendered in *;
    cbn in Havail, Hres; evaluate; branches;
    try (intros Hstage; try done; by apply Hres).
  all: intros _; apply Hres; apply andb_true_iff in Havail as [Hidle _];
    apply bool_decide_eq_true in Hidle; by rewrite Hidle.
Qed.

(** X12.  Along every session played through the rendered controls (the
    analyze button being rendered at stage [idle] only), results are held at
    stage [complete] only: at every other stage the document info, the
    understanding, the key takeaways, the recommendations and the quality
    score are those of the first render, empty. *)
Theorem results_are_held_at_complete_only
    (script : list (Env * Action)) (s : State) :
  playable script s = true →
  results_only_when_complete s →
  results_only_when_complete (session script s).1.
Proof.
  apply (playable_session_keeps results_only_when_complete).
  intros a env. apply available_action_keeps_results.
Qed.

Lemma results_are_held_at_complete_only_witness :
  results_only_when_complete
    (session
       [ (Scenario.upload_fails, HandleFileChange [Scenario.paper_pdf]);
         (Scenario.upload_succeeds (Js.Resolved Scenario.asks_back),
          AnalyzeDocument);
         (Scenario.upload_fails, ChangeUserInput "Focus on methodology");
         (Scenario.upload_succeeds
            (Js.Resolved (Scenario.reply_with Scenario.only_document_info)),
          SendMessage);
         (Scenario.upload_fails, ResetAnalysis) ]
       initial).1.
Proof.
  apply (results_are_held_at_complete_only _ initial).
  - vm_compute. reflexivity.
  - intros _. reflexivity.
Defined.

(** ** Export *)

(** X13.  The exported file is named after the title: the name is the
    title with every code unit other than an ASCII letter or digit turned
    into an underscore, followed by [_summary.md].  Position by position,
    the stem holds the code unit of the title when that is a letter or a
    digit and an underscore otherwise; so it is as long as the title, holds
    letters, digits and underscores only, and is the title itself when the
    title holds letters and digits only. *)
Theorem export_filename_is_plain
    (s : State) (env : Env) (doc : DocumentInfo) :
  documentInfo s = Some doc →
  ∃ stem content,
    downloads (trace (run exportSummary env s))
    = [ (stem +:+ "_summary.md", content) ]
    ∧ stem = Js.replace_non_alnum (title doc)
    ∧ (∀ i c, String.get i (title doc) = Some c →
              String.get i stem
              = Some (if Js.is_alnum c then c else "_"%char))
    ∧ String.length stem = String.length (title doc)
    ∧ Forall (λ c, Js.is_alnum c = true ∨ c = "_"%char)
        (list_ascii_of_string stem)
    ∧ (Forall (λ c, Js.is_alnum c = true) (list_ascii_of_string (title doc)) →
       stem = title doc).
Proof.
  intros Hdoc.
  destruct s as [pf doi arx drag ids msgs inp load stg d und kts recs qs
                 exp side].
  cbn in Hdoc; subst. evaluate.
  exists (Js.replace_non_alnum (title doc)), (exportContent doc und kts recs).
  split; [done |]. split; [done |].
  split; [apply JsFacts.replace_non_alnum_get |].
  destruct (JsFacts.replace_non_alnum_chars (title doc)) as [Hchars Hlen].
  split; [done |]. split; [done |].
  apply JsFacts.replace_non_alnum_plain.
Qed.

Lemma export_filename_is_plain_witness :
  ∃ stem content,
    downloads
      (trace (run exportSummary Scenario.upload_fails
                (Scenario.document_info_held Scenario.two_line_title)))
    = [ (stem +:+ "_summary.md", content) ]
    ∧ stem = "Deep_Nets"
    ∧ (∀ i c, String.get i (title Scenario.two_line_title) = Some c →
              String.get i stem
              = Some (if Js.is_alnum c then c else "_"%char))
    ∧ String.length stem = 9
    ∧ Forall (λ c, Js.is_alnum c = true ∨ c = "_"%char)
        (list_ascii_of_string stem)
    ∧ (Forall (λ c, Js.is_alnum c = true)
         (list_ascii_of_string (title Scenario.two_line_title)) →
       stem = title Scenario.two_line_title).
Proof.
  apply (export_filename_is_plain
           (Scenario.document_info_held Scenario.two_line_title)
           Scenario.upload_fails Scenario.two_line_title).
  vm_compute. reflexivity.
Defined.

Lemma exportContent_steps (doc : DocumentInfo)
    (und : option UnderstandingResult) (kts : list KeyPoint)
    (recs : list Recommendation) :
  exportContent doc und kts recs
  = let c1 :=
      if bool_decide (0 < length (authors doc))
      then ("# " +:+ title doc +:+ LF +:+ LF)
           +:+ "**Authors:** " +:+ Js.join ", " (authors doc) +:+ LF +:+ LF
      else "# " +:+ title doc +:+ LF +:+ LF in
    let c2 :=
      match und with
      | Some u =>
          if Js.truthy (problem_statement u)
          then c1 +:+ "## Problem Statement" +:+ LF
                  +:+ problem_statement u +:+ LF +:+ LF
          else c1
      | None => c1
      end in
    let c3 :=
      if bool_decide (0 < length kts)
      then c2 +:+ "## Key Takeaways" +:+ LF
              +:+ Js.join LF
                    (Js.mapi (λ k i, pretty (i + 1) +:+ ". " +:+ point k) kts)
              +:+ LF +:+ LF
      else c2 in
    if bool_decide (0 < length recs)
    then c3 +:+ "## Related Papers" +:+ LF
            +:+ Js.join LF
                  (map (λ r, "- " +:+ rec_title r +:+ " ("
                               +:+ pretty (rec_year r) +:+ ")") recs)
            +:+ LF
    else c3.
Proof. reflexivity. Qed.

Lemma nonempty_length {A : Type} (x : A) (xs : list A) :
  x ∈ xs → bool_decide (0 < length xs) = true.
Proof.
  intros Hin. apply bool_decide_eq_true.
  destruct xs; [by apply elem_of_nil in Hin | cbn; lia].
Qed.

(** X14.  The exported text shows what is held: every author of the
    document info, the problem statement of the understanding, the point of
    every key takeaway and the title of every recommendation occur in it. *)
Theorem export_shows_what_is_held
    (s : State) (env : Env) (doc : DocumentInfo) :
  documentInfo s = Some doc →
  ∃ filename content,
    downloads (trace (run exportSummary env s)) = [ (filename, content) ]
    ∧ (∀ a, a ∈ authors doc → Js.includes content a = true)
    ∧ (∀ u, understanding s = Some u →
            Js.includes content (problem_statement u) = true)
    ∧ (∀ k, k ∈ keyTakeaways s → Js.includes content (point k) = true)
    ∧ (∀ r, r ∈ recommendations s →
            Js.includes content (rec_title r) = true).
Proof.
  intros Hdoc.
  destruct s as [pf doi arx drag ids msgs inp load stg d und kts recs qs
                 exp side].
  cbn in Hdoc; subst. evaluate.
  exists (exportFilename doc), (exportContent doc und kts recs).
  split; [done |]. rewrite exportContent_steps. cbn zeta.
  repeat split.
  - intros a Ha. rewrite (nonempty_length a _ Ha).
    destruct (bool_decide (0 < length recs));
      [apply JsFacts.includes_append_l |];
      (destruct (bool_decide (0 < length kts));
         [apply JsFacts.includes_append_l |]);
      (destruct und as [u |]; [destruct (Js.truthy (problem_statement u));
         [apply JsFacts.includes_append_l |] |]);
      apply JsFacts.includes_append_r, JsFacts.includes_append_r,
        JsFacts.includes_append_l;
      by apply (JsFacts.includes_join _ _ a), JsFacts.includes_refl.
  - intros u [= ->].
    destruct (bool_decide (0 < length recs));
      [apply JsFacts.includes_append_l |];
      (destruct (bool_decide (0 < length kts));
         [apply JsFacts.includes_append_l |]);
      (destruct (Js.truthy (problem_statement u)) eqn:Hps;
         [ apply JsFacts.includes_append_r, JsFacts.includes_append_r,
             JsFacts.includes_append_r, JsFacts.includes_append_l,
             JsFacts.includes_refl
         | apply truthy_empty in Hps; rewrite Hps;
           apply JsFacts.includes_empty ]).
  - intros k Hk. rewrite (nonempty_length k _ Hk).
    destruct (JsFacts.elem_of_mapi_from
                (λ k i, pretty (i + 1) +:+ ". " +:+ point k) kts k 0 Hk)
      as [j Hj].
    destruct (bool_decide (0 < length recs));
      [apply JsFacts.includes_append_l |];
      apply JsFacts.includes_append_r, JsFacts.includes_append_r,
        JsFacts.includes_append_r, JsFacts.includes_append_l;
      apply (JsFacts.includes_join _ _ _ _ Hj);
      apply JsFacts.includes_append_r, JsFacts.includes_append_r,
        JsFacts.includes_refl.
  - intros r Hr. rewrite (nonempty_length r _ Hr).
    apply JsFacts.includes_append_r, JsFacts.includes_append_r,
      JsFacts.includes_append_r, JsFacts.includes_append_l.
    apply (JsFacts.includes_join _ _
             ("- " +:+ rec_title r +:+ " (" +:+ pretty (rec_year r) +:+ ")")).
    + apply list_elem_of_In. apply list_elem_of_In in Hr.
      by apply (in_map (λ r, "- " +:+ rec_title r +:+ " ("
                               +:+ pretty (rec_year r) +:+ ")")).
    + apply JsFacts.includes_append_r, JsFacts.includes_append_l,
        JsFacts.includes_refl.
Qed.

Lemma export_shows_what_is_held_witness :
  ∃ filename content,
    downloads
      (trace (run exportSummary Scenario.upload_fails
                (Scenario.document_info_held Scenario.attention)))
    = [ (filename, content) ]
    ∧ Js.includes content "Noam Shazeer" = true.
Proof.
  destruct (export_shows_what_is_held
              (Scenario.document_info_held Scenario.attention)
              Scenario.upload_fails Scenario.attention)
    as (filename & content & Hfile & Hauthors & _).
  - vm_compute. reflexivity.
  - exists filename, content. split; [exact Hfile |].
    apply Hauthors. apply list_elem_of_In. cbn. tauto.
Defined.

(** ** Links of the recommendation cards *)

(** X15.  An identifier [arXiv:x], with no further colon in [x], links to
    [https://arxiv.org/abs/x]. *)
Theorem arxiv_identifier_links_to_arxiv (x : string) :
  Js.free_of ":"%char x = true →
  Cards.paperHref ("arXiv:" +:+ x) = "https://arxiv.org/abs/" +:+ x.
Proof.
  intros Hfree. unfold Cards.paperHref.
  change ("arXiv:" +:+ x) with ("arXiv" +:+ String ":"%char x).
  rewrite (JsFacts.split_at_first ":"%char "arXiv" x eq_refl).
  rewrite (JsFacts.split_free _ _ Hfree). reflexivity.
Qed.

Lemma arxiv_identifier_links_to_arxiv_witness :
  Cards.paperHref "arXiv:1810.04805" = "https://arxiv.org/abs/1810.04805".
Proof.
  apply (arxiv_identifier_links_to_arxiv "1810.04805"). reflexivity.
Defined.

(** X16.  An identifier [doi:x] links to [https://doi.org/x], whatever [x]
    is; and an identifier that neither starts with [arXiv] nor holds [doi:]
    anywhere, a bare DOI for one, is appended to [https://doi.org/] as it
    is. *)
Theorem doi_identifier_links_to_doi_org (id : string) :
  Cards.paperHref ("doi:" +:+ id) = "https://doi.org/" +:+ id
  ∧ (Js.startsWith id "arXiv" = false →
     Js.includes id "doi:" = false →
     Cards.paperHref id = "https://doi.org/" +:+ id).
Proof.
  split.
  - unfold Cards.paperHref.
    rewrite (JsFacts.replace_first_at_start "doi:" "" _
               (JsFacts.prefix_of_append "doi:" id)).
    reflexivity.
  - intros Hstart Habsent. unfold Cards.paperHref. rewrite Hstart.
    by rewrite JsFacts.replace_first_absent.
Qed.

Lemma doi_identifier_links_to_doi_org_witness :
  Cards.paperHref "10.1000/x" = "https://doi.org/10.1000/x".
Proof.
  apply (doi_identifier_links_to_doi_org "10.1000/x"); reflexivity.
Defined.

(** X17.  The arXiv link is built from the text between the first and the
    second colon: an identifier that starts with [arXiv] and holds no colon
    links to [https://arxiv.org/abs/undefined], and whatever follows a second
    colon is left out of the link. *)
Theorem arxiv_identifier_edge_cases (x y : string) :
  Js.free_of ":"%char x = true →
  Cards.paperHref ("arXiv" +:+ x) = "https://arxiv.org/abs/undefined"
  ∧ Cards.paperHref ("arXiv:" +:+ x +:+ ":" +:+ y)
    = "https://arxiv.org/abs/" +:+ x.
Proof.
  intros Hfree. unfold Cards.paperHref. split.
  - assert (Js.free_of ":"%char ("arXiv" +:+ x) = true) as Hall by done.
    unfold Js.startsWith. rewrite (JsFacts.prefix_of_append "arXiv" x).
    by rewrite (JsFacts.split_free _ _ Hall).
  - assert (Js.startsWith ("arXiv:" +:+ x +:+ ":" +:+ y) "arXiv" = true)
      as -> by done.
    change ("arXiv:" +:+ x +:+ ":" +:+ y)
      with ("arXiv" +:+ String ":"%char (x +:+ String ":"%char y)).
    rewrite (JsFacts.split_at_first ":"%char "arXiv" _ eq_refl).
    by rewrite (JsFacts.split_at_first ":"%char x y Hfree).
Qed.

Lemma arxiv_identifier_edge_cases_witness :
  Cards.paperHref "arXiv.1810.04805" = "https://arxiv.org/abs/undefined"
  ∧ Cards.paperHref "arXiv:1810.04805:v2"
    = "https://arxiv.org/abs/1810.04805".
Proof.
  pose proof (arxiv_identifier_edge_cases ".1810.04805" "" eq_refl) as [H1 _].
  pose proof (arxiv_identifier_edge_cases "1810.04805" "v2" eq_refl)
    as [_ H2].
  split; [exact H1 | exact H2].
Defined.

End PageMore.

(** * Further properties of [src/unnamed/part_000] *)

Module PipelineMore.

Import Pipeline.

#[local] Set Warnings "-clear-no-such-hyp".
#[local] Arguments String.append : simpl never.
#[local] Arguments Js.trim : simpl never.
#[local] Arguments Js.truthy : simpl never.
#[local] Arguments initialMessage : simpl never.
#[local] Arguments exportContent : simpl never.

Ltac evaluate :=
  unfold run, completion, handler, analyzeForm, sendMessage, exportSummary,
    toggleSection, markStageComplete, handleDrag, handleDrop,
    handleFileChange, callAIAgent, setTimeout, set, fn,
    try_catch, closure, ask, emit, modify, tick, await, return_, throw,
    mbind, mret, handler_bind, handler_ret, bind, ret in *;
  cbn in *.

Ltac branches := PipelineSpec.branches.

(** ** A conversation turn *)

(** X18.  When the coordinator call of a turn fails, by a reply that does
    not report success or by rejection, [sendMessage] of this page appends
    the user turn, with the input as typed, and nothing else: no assistant
    turn tells the user of the failure.  The loading flag is cleared, the
    stage is not written and no timer is set. *)
Theorem pipeline_turn_fails_silently (s : State) (env : Env) :
  sendable s →
  call_failed (callAIAgent_settles env (userInput s) DISCOVERY_COORDINATOR)
  = true →
  let w := run sendMessage env s in
  chatMessages (cells w)
  = chatMessages s ++ [ {| role := user; content := userInput s |} ]
  ∧ isLoading (cells w) = false
  ∧ stage_writes (trace w) = []
  ∧ currentStage (cells w) = currentStage s
  ∧ timers (trace w) = [].
Proof.
  intros [Hinput Hidle] Hfailed.
  destruct s as [pf doi arx drag msgs inp load cur done_ doc und sm recs ql
                 exp side shw].
  cbn in *; subst. evaluate. rewrite Hinput. cbn.
  destruct (callAIAgent_settles _ _ _) as [r | e]; cbn in *; [| done].
  apply negb_true_iff in Hfailed. rewrite Hfailed. done.
Qed.

Lemma pipeline_turn_fails_silently_witness :
  let s := PipelineScenario.request_typed in
  let w := run sendMessage PipelineScenario.rejects s in
  chatMessages (cells w)
  = chatMessages s
    ++ [ {| role := user; content := " Focus on methodology " |} ]
  ∧ isLoading (cells w) = false
  ∧ stage_writes (trace w) = []
  ∧ currentStage (cells w) = parsing
  ∧ timers (trace w) = [].
Proof.
  apply (pipeline_turn_fails_silently PipelineScenario.request_typed
           PipelineScenario.rejects);
    [split; vm_compute; reflexivity | vm_compute; reflexivity].
Defined.

(** X19.  When the coordinator replies with success, [sendMessage] of this
    page has made one call, whose message is the input as typed, not
    trimmed, and appends the user turn and the reply's message.  When the
    reply's [next_action] is [trigger_ingestion] it sets the stage to
    [parsing] and sets one timer, for the document ingestion in 1500 ms;
    for every other [next_action] it writes no stage and sets no timer. *)
Theorem pipeline_turn_succeeds
    (s : State) (env : Env) (r : AgentResult DiscoveryCoordinatorResult) :
  sendable s →
  callAIAgent_settles env (userInput s) DISCOVERY_COORDINATOR
  = Js.Resolved r →
  succeeded r = true →
  let w := run sendMessage env s in
  coordinator_calls (trace w) = [ (userInput s, DISCOVERY_COORDINATOR) ]
  ∧ chatMessages (cells w)
    = chatMessages s
      ++ [ {| role := user; content := userInput s |};
           {| role := assistant;
              content := user_message (result (response r)) |} ]
  ∧ isLoading (cells w) = false
  ∧ (if String.eqb (next_action (result (response r))) "trigger_ingestion"
     then stage_writes (trace w) = [parsing]
          ∧ timers (trace w) = [ (SimulateDocumentIngestion, 1500%Z) ]
     else stage_writes (trace w) = []
          ∧ currentStage (cells w) = currentStage s
          ∧ timers (trace w) = []).
Proof.
  intros [Hinput Hidle] Hreply Hok.
  destruct s as [pf doi arx drag msgs inp load cur done_ doc und sm recs ql
                 exp side shw].
  cbn in *; subst. evaluate. rewrite Hinput. cbn. rewrite Hreply. cbn.
  rewrite Hok. cbn.
  destruct (String.eqb _ _); cbn; rewrite <- app_assoc; done.
Qed.

Lemma pipeline_turn_succeeds_witness :
  let s := PipelineScenario.request_typed in
  let env :=
    PipelineScenario.answers
      (PipelineScenario.success_with PipelineScenario.trigger_reply) in
  let w := run sendMessage env s in
  coordinator_calls (trace w)
  = [ (" Focus on methodology ", DISCOVERY_COORDINATOR) ]
  ∧ chatMessages (cells w)
    = chatMessages s
      ++ [ {| role := user; content := " Focus on methodology " |};
           {| role := assistant; content := "Starting the analysis." |} ]
  ∧ isLoading (cells w) = false
  ∧ stage_writes (trace w) = [parsing]
  ∧ timers (trace w) = [ (SimulateDocumentIngestion, 1500%Z) ].
Proof.
  apply (pipeline_turn_succeeds PipelineScenario.request_typed
           (PipelineScenario.answers
              (PipelineScenario.success_with PipelineScenario.trigger_reply))
           (PipelineScenario.success_with PipelineScenario.trigger_reply));
    [split; vm_compute; reflexivity | vm_compute; reflexivity
    | vm_compute; reflexivity].
Defined.

(** ** Starting an analysis *)

(** X20.  An [analyzeForm] that passes its guard sets the stage to
    [parsing], shows the results panel, starts the log afresh with the
    synthesized opening message and makes one coordinator call with that
    message.  On a successful reply the
    log is the opening message followed by the reply's message and the
    loading flag is cleared; on rejection the log is the opening message
    alone, the rejection is logged to the console and the flag is cleared.
    No timer is set. *)
Theorem analyzeForm_opening_turn (s : State) (env : Env) :
  submittable s →
  let w := run analyzeForm env s in
  currentStage (cells w) = parsing
  ∧ showResults (cells w) = true
  ∧ coordinator_calls (trace w)
    = [ (initialMessage s, DISCOVERY_COORDINATOR) ]
  ∧ timers (trace w) = []
  ∧ match callAIAgent_settles env (initialMessage s) DISCOVERY_COORDINATOR
    with
    | Js.Resolved r =>
        succeeded r = true →
        chatMessages (cells w)
        = [ {| role := user; content := initialMessage s |};
            {| role := assistant;
               content := user_message (result (response r)) |} ]
        ∧ isLoading (cells w) = false
    | Js.Rejected reason =>
        chatMessages (cells w)
        = [ {| role := user; content := initialMessage s |} ]
        ∧ isLoading (cells w) = false
        ∧ console_errors (trace w) = [reason]
    end.
Proof.
  intros Hsub.
  destruct s as [pf doi arx drag msgs inp load cur done_ doc und sm recs ql
                 exp side shw].
  unfold submittable in Hsub; cbn in Hsub.
  assert (negb (bool_decide (is_Some pf)) && negb (Js.truthy doi)
          && negb (Js.truthy arx) = false) as Hguard.
  { destruct Hsub as [[f ->] | [H | H]]; [done | |].
    - apply PageSpec.truthy_nonempty in H. rewrite H. by rewrite andb_false_r.
    - apply PageSpec.truthy_nonempty in H. rewrite H. by rewrite andb_false_r. }
  evaluate. rewrite Hguard. cbn.
  destruct (callAIAgent_settles _ _ _) as [r | e]; cbn.
  - destruct (succeeded r); cbn; repeat split; done.
  - repeat split; done.
Qed.

Lemma analyzeForm_opening_turn_witness :
  let s := PipelineScenario.doi_entered in
  let w := run analyzeForm PipelineScenario.rejects s in
  currentStage (cells w) = parsing
  ∧ showResults (cells w) = true
  ∧ coordinator_calls (trace w)
    = [ ("I've uploaded a paper (DOI: 10.1000/x). Please help me analyze it.",
         DISCOVERY_COORDINATOR) ]
  ∧ timers (trace w) = []
  ∧ chatMessages (cells w)
    = [ {| role := user;
           content :=
             "I've uploaded a paper (DOI: 10.1000/x). Please help me analyze it."
        |} ]
  ∧ isLoading (cells w) = false
  ∧ console_errors (trace w) = ["network down"].
Proof.
  apply (analyzeForm_opening_turn PipelineScenario.doi_entered
           PipelineScenario.rejects).
  right. left. vm_compute. discriminate.
Defined.

(** ** The completed stages and the scripted run *)

(** What a fired callback leaves: the stage it completes is added to the
    completed stages, the log and the intake are untouched, no remote call
    is made. *)
Lemma callback_cells (c : Callback) (env : Env) (s : State) :
  let w := run (callback c) env s in
  stagesCompleted (cells w) = stagesCompleted s ∪ {[ completes c ]}
  ∧ chatMessages (cells w) = chatMessages s
  ∧ isLoading (cells w) = isLoading s
  ∧ coordinator_calls (trace w) = [].
Proof.
  destruct s as [pf doi arx drag msgs inp load cur done_ doc und sm recs ql
                 exp side shw].
  destruct c; repeat split; reflexivity.
Qed.

Lemma action_keeps_completed (a : Action) (env : Env) (s : State) :
  stagesCompleted s ⊆ stagesCompleted (cells (run (handler a) env s)).
Proof.
  destruct a.
  12: { destruct (callback_cells c env s) as (Hdone & _).
        cbn [handler]. rewrite Hdone. set_solver. }
  all: destruct s as [pf doi arx drag msgs inp load cur done_ doc und sm recs
                      ql exp side shw];
    evaluate; branches; done.
Qed.

Lemma pipeline_session_cons (env : Env) (a : Action)
    (rest : list (Env * Action)) (s : State) :
  session ((env, a) :: rest) s
  = ((session rest (cells (run (handler a) env s))).1,
     trace (run (handler a) env s)
     ++ (session rest (cells (run (handler a) env s))).2).
Proof. cbn. by destruct (session rest _). Qed.

(** X21.  A completed stage stays completed: whatever user actions and
    timer firings follow, in whatever order, and whatever the coordinator
    does, a stage that is in the completed set is still in it, and the stage
    indicator still draws it with a check mark, also when it has become the
    current stage again. *)
Theorem completed_stage_stays_completed
    (script : list (Env * Action)) (s : State) (id : PipelineStage) :
  id ∈ stagesCompleted s →
  id ∈ stagesCompleted (session script s).1
  ∧ marker (session script s).1 id = CheckMark.
Proof.
  intros Hid.
  assert (id ∈ stagesCompleted (session script s).1) as Hkept.
  { revert s Hid. induction script as [| [env a] rest IH]; intros s Hid.
    - done.
    - rewrite pipeline_session_cons. cbn [fst]. apply IH.
      by apply (action_keeps_completed a env s). }
  split; [done |]. unfold marker. by rewrite decide_True.
Qed.

Lemma completed_stage_stays_completed_witness :
  let env :=
    PipelineScenario.answers
      (PipelineScenario.success_with PipelineScenario.trigger_reply) in
  let s :=
    (session [ (env, Fire SimulateDocumentIngestion) ]
       PipelineScenario.request_typed).1 in
  let s' :=
    (session [ (env, ChangeUserInput "Again"); (env, SendMessage) ] s).1 in
  currentStage s' = parsing
  ∧ parsing ∈ stagesCompleted s'
  ∧ marker s' parsing = CheckMark.
Proof.
  split; [vm_compute; reflexivity |].
  apply (completed_stage_stays_completed
           [ (PipelineScenario.answers
                (PipelineScenario.success_with PipelineScenario.trigger_reply),
              ChangeUserInput "Again");
             (PipelineScenario.answers
                (PipelineScenario.success_with PipelineScenario.trigger_reply),
              SendMessage) ]).
  compute_done.
Defined.

(** X22.  The scripted run, from any state of the page: once the
    ingestion timer is pending, five firings take the page to [complete],
    through the stages in order, with the four further timers set at 2000,
    2000, 2000 and 1500 ms.  The five stages are added to the completed ones
    and the indicator shows five check marks.  The run makes no coordinator
    call and leaves the log and the loading flag alone, and the results it
    leaves are the same whatever the page held and whatever was submitted.
    After the fifth firing no timer is pending: more firings change
    nothing. *)
Theorem scripted_run_from_any_state (s : State) (env : Env) (due : Z) :
  let r := fire 5 env [ (due, SimulateDocumentIngestion) ] s in
  currentStage r.1 = complete
  ∧ stage_writes r.2
    = [ understanding; summarizing; finding_papers; quality_check; complete ]
  ∧ timers r.2
    = [ (SimulateUnderstanding, 2000%Z); (SimulateSummarization, 2000%Z);
        (SimulateRecommendations, 2000%Z); (SimulateQualityControl, 1500%Z) ]
  ∧ stagesCompleted r.1
    = stagesCompleted s
      ∪ {[ parsing; understanding; summarizing; finding_papers;
           quality_check ]}
  ∧ PipelineIndicator r.1
    = [ (parsing, CheckMark); (understanding, CheckMark);
        (summarizing, CheckMark); (finding_papers, CheckMark);
        (quality_check, CheckMark) ]
  ∧ coordinator_calls r.2 = []
  ∧ chatMessages r.1 = chatMessages s
  ∧ isLoading r.1 = isLoading s
  ∧ (∀ s' env' due',
       held_results (fire 5 env' [ (due', SimulateDocumentIngestion) ] s').1
       = held_results r.1)
  ∧ (∀ n, fire (5 + n) env [ (due, SimulateDocumentIngestion) ] s = r).
Proof.
  destruct s as [pf doi arx drag msgs inp load cur done_ doc und sm recs ql
                 exp side shw].
  assert (stagesCompleted
            (fire 5 env [ (due, SimulateDocumentIngestion) ]
               (mkState pf doi arx drag msgs inp load cur done_ doc und sm
                  recs ql exp side shw)).1
          = done_ ∪ {[ parsing ]} ∪ {[ understanding ]} ∪ {[ summarizing ]}
            ∪ {[ finding_papers ]} ∪ {[ quality_check ]}) as Hdone
    by reflexivity.
  intros r.
  split; [reflexivity |]. split; [reflexivity |]. split; [reflexivity |].
  split.
  { etrans; [exact Hdone |]. cbn [stagesCompleted]. set_solver. }
  split.
  { unfold PipelineIndicator, indicator_stages, marker. cbn [map].
    fold r in Hdone. rewrite Hdone.
    rewrite !decide_True by set_solver. done. }
  split; [reflexivity |]. split; [reflexivity |]. split; [reflexivity |].
  split.
  - intros [] env' due'. vm_compute. reflexivity.
  - intros n. destruct n; vm_compute; reflexivity.
Qed.

(** X23.  This page never clears a result: once the document info, the
    understanding, the summary or the quality result is held, it is held
    after every sequence of user actions and timer firings, a new
    [analyzeForm] included.  The page has no reset. *)
Theorem results_are_never_cleared
    (script : list (Env * Action)) (s : State) :
  let s' := (session script s).1 in
  (is_Some (documentInfo s) → is_Some (documentInfo s'))
  ∧ (is_Some (understandingResult s) → is_Some (understandingResult s'))
  ∧ (is_Some (summaryResult s) → is_Some (summaryResult s'))
  ∧ (is_Some (qualityResult s) → is_Some (qualityResult s')).
Proof.
  cbn zeta. revert s. induction script as [| [env a] rest IH]; intros s.
  - done.
  - rewrite pipeline_session_cons. cbn [fst].
    destruct (IH (cells (run (handler a) env s))) as (Hdoc & Hund & Hsum & Hql).
    assert ((is_Some (documentInfo s) →
             is_Some (documentInfo (cells (run (handler a) env s))))
            ∧ (is_Some (understandingResult s) →
               is_Some (understandingResult (cells (run (handler a) env s))))
            ∧ (is_Some (summaryResult s) →
               is_Some (summaryResult (cells (run (handler a) env s))))
            ∧ (is_Some (qualityResult s) →
               is_Some (qualityResult (cells (run (handler a) env s)))))
      as (Hdoc' & Hund' & Hsum' & Hql').
    { clear. destruct a.
      12: { destruct s as [pf doi arx drag msgs inp load cur done_ doc und sm
                           recs ql exp side shw].
            destruct c; repeat split; intros H;
              first [ exact H | by eexists ]. }
      all: destruct s as [pf doi arx drag msgs inp load cur done_ doc und sm
                          recs ql exp side shw];
        evaluate; branches; done. }
    repeat split; auto.
Qed.

Lemma results_are_never_cleared_witness :
  let env := PipelineScenario.answers
               (PipelineScenario.success_with PipelineScenario.idle_reply) in
  let s := (fire 5 env [ (0%Z, SimulateDocumentIngestion) ]
              PipelineScenario.request_typed).1 in
  let s' := (session [ (env, ChangeDoiInput "10.1000/y"); (env, AnalyzeForm) ]
               s).1 in
  length (chatMessages s') = 2
  ∧ is_Some (summaryResult s').
Proof.
  split; [vm_compute; reflexivity |].
  apply (results_are_never_cleared
           [ (PipelineScenario.answers
                (PipelineScenario.success_with PipelineScenario.idle_reply),
              ChangeDoiInput "10.1000/y");
             (PipelineScenario.answers
                (PipelineScenario.success_with PipelineScenario.idle_reply),
              AnalyzeForm) ]).
  vm_compute. by eexists.
Defined.

(** ** The loading flag *)

Lemma action_keeps_loading (a : Action) (env : Env) (s : State) :
  a ≠ AnalyzeForm →
  isLoading s = true →
  let w := run (handler a) env s in
  isLoading (cells w) = true
  ∧ chatMessages (cells w) = chatMessages s
  ∧ coordinator_calls (trace w) = [].
Proof.
  intros Ha Hload. destruct a; try (by destruct Ha).
  11: { destruct (callback_cells c env s) as (_ & Hlog & Hkeep & Hcalls).
        cbn [handler]. cbn zeta. by rewrite Hkeep. }
  all: destruct s as [pf doi arx drag msgs inp load cur done_ doc und sm recs
                      ql exp side shw];
    cbn in Hload; subst; evaluate; rewrite ?orb_true_r; branches; done.
Qed.

(** X24.  While the loading flag is set between two handlers, as a reply
    of the opening turn that does not report success leaves it, nothing but
    [analyzeForm] clears it: after any user actions and timer firings other
    than [analyzeForm] the flag is still set, the log is as it was and the
    coordinator has not been called, so every message sent in between is
    dropped. *)
Theorem loading_is_cleared_by_analyzeForm_only
    (script : list (Env * Action)) (s : State) :
  isLoading s = true →
  Forall (λ step, step.2 ≠ AnalyzeForm) script →
  let r := session script s in
  isLoading r.1 = true
  ∧ chatMessages r.1 = chatMessages s
  ∧ coordinator_calls r.2 = [].
Proof.
  cbn zeta. revert s.
  induction script as [| [env a] rest IH]; intros s Hload Hscript.
  - done.
  - apply Forall_cons in Hscript as [Ha Hrest]. cbn in Ha.
    destruct (action_keeps_loading a env s Ha Hload) as (Hload' & Hlog & Hcalls).
    destruct (IH _ Hload' Hrest) as (Hload'' & Hlog' & Hcalls').
    rewrite pipeline_session_cons. cbn [fst snd].
    split; [done |]. split; [congruence |].
    unfold coordinator_calls in *. rewrite omap_app.
    by rewrite Hcalls, Hcalls'.
Qed.

Lemma loading_is_cleared_by_analyzeForm_only_witness :
  let env := PipelineScenario.answers PipelineScenario.soft_failure in
  let s := cells (run analyzeForm env PipelineScenario.doi_entered) in
  let r :=
    session [ (env, ChangeUserInput "Focus on methodology");
              (env, SendMessage);
              (env, Fire SimulateDocumentIngestion) ] s in
  isLoading r.1 = true
  ∧ chatMessages r.1 = chatMessages s
  ∧ coordinator_calls r.2 = [].
Proof.
  apply (loading_is_cleared_by_analyzeForm_only
           [ (PipelineScenario.answers PipelineScenario.soft_failure,
              ChangeUserInput "Focus on methodology");
             (PipelineScenario.answers PipelineScenario.soft_failure,
              SendMessage);
             (PipelineScenario.answers PipelineScenario.soft_failure,
              Fire SimulateDocumentIngestion) ]).
  - vm_compute. reflexivity.
  - repeat constructor; discriminate.
Defined.

(** ** Export *)

(** X25.  [exportSummary] of this page, with a summary held, hands the
    browser one file, [summary.md], and changes no cell; the text contains
    the summary and, for every key point, a line with the point and its
    section reference.  With no summary held it does nothing. *)
Theorem pipeline_export_lists_key_points (s : State) (env : Env) :
  let w := run exportSummary env s in
  cells w = s
  ∧ match summaryResult s with
    | None => trace w = []
    | Some sm =>
        ∃ content,
          trace w = [ Download "summary.md" content ]
          ∧ Js.includes content (summary sm) = true
          ∧ ∀ p, p ∈ key_points sm →
                 Js.includes content
                   ("- " +:+ point p +:+ " (" +:+ section_reference p +:+ ")")
                 = true
    end.
Proof.
  destruct s as [pf doi arx drag msgs inp load cur done_ doc und sm recs ql
                 exp side shw].
  destruct sm as [sm |]; evaluate; [| done].
  split; [done |]. exists (exportContent sm). split; [done |].
  unfold exportContent. split.
  - apply JsFacts.includes_append_r, JsFacts.includes_append_r,
      JsFacts.includes_append_r, JsFacts.includes_append_l,
      JsFacts.includes_refl.
  - intros p Hp.
    do 7 apply JsFacts.includes_append_r.
    apply (JsFacts.includes_join _ _
             ("- " +:+ point p +:+ " (" +:+ section_reference p +:+ ")")).
    + apply list_elem_of_In. apply list_elem_of_In in Hp.
      by apply (in_map (λ p, "- " +:+ point p +:+ " ("
                             +:+ section_reference p +:+ ")")).
    + apply JsFacts.includes_refl.
Qed.

End PipelineMore.
